(** * The dashboard's connection and state-synchronisation layer

    A shallow embedding of [src/fontend/src/App.jsx]: the React component
    [App] with its state cells, its two refs, and the handlers it installs
    on the WebSocket, on timers, on [fetch] continuations and on the two
    controls of the header (the bank selector and the START button).

    The component runs on a single-threaded event loop.  Every handler is a
    function on a [World]: the component's state and refs together with the
    part of the browser the handlers talk to (sockets, pending timers,
    requests in flight) and the list of commands issued so far.  An [async]
    function is cut at its [await]: the part before it issues the request,
    the part after it runs when the request settles.

    - Inbound frames are raw text; [JSON.parse] is a parameter and the
      parsed message an arbitrary JSON value, read with JavaScript's member
      access, strict equality and string conversion.
    - HTTP response bodies are taken at the shape the endpoints declare.
    - State updates queued in one handler apply in order before the next
      event, so a handler maps the world before to the world after.
    - [step] says which events the browser can deliver in a world; the
      properties of runs are about [run] from [mount].
    - [step] is the state update of a turn.  The render that follows can
      fail in LogPanel alone, on a message React cannot place in the tree;
      [LogPanel_renders] says when it does not.
    - ResultsTable, which holds no state of App, runs beside it in a
      [Page]: [page_step] adds the clicks on its Download ZIP buttons and
      the downloads settling to the events of App. *)

From Stdlib Require Import Ascii.
From stdpp Require Import base option list gmap strings pretty.

Open Scope string_scope.
Open Scope list_scope.
Open Scope nat_scope.

(** ** JavaScript values *)

Module Js.

#[local] Set Warnings "-register-all".

(** What [JSON.parse] can return, plus [undefined] (the result of reading
    a missing member).  A number is kept as its [Number::toString]
    rendering, the only thing the component ever does with one. *)
Inductive Value :=
| Undefined
| Null
| Bool (b : bool)
| Num (repr : string)
| Str (s : string)
| Arr (elems : list Value)
| Obj (props : list (string * Value)).

(** Own property of a plain object. *)
Fixpoint own (props : list (string * Value)) (k : string) : option Value :=
  match props with
  | [] => None
  | (k', v) :: rest => if String.eqb k' k then Some v else own rest k
  end.

(** [v.k] for a member name [k] that no built-in prototype defines (all
    the names read in App.jsx are such).  [None] is the TypeError raised
    on [null] and [undefined]. *)
Definition get (v : Value) (k : string) : option Value :=
  match v with
  | Undefined | Null => None
  | Obj props => Some (default Undefined (own props k))
  | _ => Some Undefined
  end.

(** [v === lit] for a string literal [lit]. *)
Definition strict_eq (v : Value) (lit : string) : bool :=
  match v with
  | Str s => String.eqb s lit
  | _ => false
  end.

(** ToString, as applied by a template literal.  An array is joined with
    commas, [null] and [undefined] elements rendering as the empty string.
    A plain object renders through [Object.prototype.toString] unless it
    has an own member called [toString]: a parsed member is never
    callable, the inherited [valueOf] returns the object itself, and
    OrdinaryToPrimitive raises a TypeError ([None]). *)
Fixpoint ToString (v : Value) : option string :=
  match v with
  | Undefined => Some "undefined"
  | Null => Some "null"
  | Bool true => Some "true"
  | Bool false => Some "false"
  | Num repr => Some repr
  | Str s => Some s
  | Arr elems =>
      (fix join (xs : list Value) : option string :=
         match xs with
         | [] => Some ""
         | x :: rest =>
             match (match x with
                    | Undefined | Null => Some ""
                    | _ => ToString x
                    end) with
             | None => None
             | Some s =>
                 match rest with
                 | [] => Some s
                 | _ => match join rest with
                        | None => None
                        | Some r => Some (s +:+ "," +:+ r)
                        end
                 end
             end
         end) elems
  | Obj props =>
      match own props "toString" with
      | Some _ => None
      | None => Some "[object Object]"
      end
  end.

(** The values ToString accepts: no object with an own [toString] member,
    looking through arrays (the members of an object are never rendered). *)
Fixpoint printable (v : Value) : bool :=
  match v with
  | Arr elems => forallb printable elems
  | Obj props =>
      match own props "toString" with
      | Some _ => false
      | None => true
      end
  | _ => true
  end.

End Js.

(** ** Data model *)

(** [{ level, message, timestamp }].  [level] and [message] of a [log]
    frame are stored as received, whatever their type. *)
Record LogEntry := {
  level : Js.Value;
  message : Js.Value;
  timestamp : string;
}.

(** An element of [data.banks]: the selector reads [bank.id], [bank.name]. *)
Record Bank := {
  bank_id : string;
  bank_name : string;
}.

(** An element of [data.results], as ResultsTable reads it. *)
Record ResultRow := {
  tender_name : string;
  description : string;
  last_date : string;
  forms_count : nat;
  download_url : string;
}.

(** [WebSocket.readyState] (CLOSING never shows: nothing closes a socket
    while the component is mounted). *)
Inductive ReadyState := CONNECTING | OPEN | CLOSED.

(** The three callbacks handed to [setTimeout]:
    [() => fetchBanks()] and [() => fetchBanks(retryCount + 1)], carrying
    the argument of the call, and the reconnect callback of [ws.onclose]. *)
Inductive Task :=
| TaskFetchBanks (retryCount : nat)
| TaskReconnect.

(** The continuation waiting on a [fetch]. *)
Inductive Request :=
| ReqBanks (retryCount : nat)
| ReqResults
| ReqStart.

(** Commands the component issues to the browser. *)
Inductive Command :=
| CmdFetch (method url : string) (body : option string)
| CmdWebSocket (url : string)
| CmdSetTimeout (task : Task) (delay : N).

Global Instance ReadyState_eq_dec : EqDecision ReadyState.
Proof. solve_decision. Defined.
Global Instance Task_eq_dec : EqDecision Task.
Proof. solve_decision. Defined.
Global Instance Request_eq_dec : EqDecision Request.
Proof. solve_decision. Defined.
Global Instance Command_eq_dec : EqDecision Command.
Proof. solve_decision. Defined.

(** Handles ([setTimeout] ids, socket and request identities) are positive:
    a timer id is truthy, so [!reconnectTimeoutRef.current] tests for
    [null]. *)
Record World := {
  (* useState *)
  banks : list Bank;
  selectedBank : string;
  isRunning : bool;
  logs : list LogEntry;
  results : list ResultRow;
  showResults : bool;
  wsConnected : bool;
  (* useRef *)
  wsRef : option positive;
  reconnectTimeoutRef : option positive;
  (* the browser *)
  sockets : gmap positive ReadyState;
  timers : gmap positive Task;
  requests : gmap positive Request;
  next_handle : positive;
  issued : list Command;
}.

(** What the browser answers during one turn of the event loop: the clock
    reading [new Date().toLocaleTimeString()] (no handler logs twice in a
    turn) and whether [new WebSocket(url)] throws. *)
Record Env := {
  now : string;
  WebSocket_throws : bool;
}.

(** *** State setters *)

Definition setBanks (v : list Bank) (w : World) : World :=
  {| banks := v; selectedBank := selectedBank w; isRunning := isRunning w;
     logs := logs w; results := results w; showResults := showResults w;
     wsConnected := wsConnected w; wsRef := wsRef w;
     reconnectTimeoutRef := reconnectTimeoutRef w; sockets := sockets w;
     timers := timers w; requests := requests w;
     next_handle := next_handle w; issued := issued w |}.

Definition setSelectedBank (v : string) (w : World) : World :=
  {| banks := banks w; selectedBank := v; isRunning := isRunning w;
     logs := logs w; results := results w; showResults := showResults w;
     wsConnected := wsConnected w; wsRef := wsRef w;
     reconnectTimeoutRef := reconnectTimeoutRef w; sockets := sockets w;
     timers := timers w; requests := requests w;
     next_handle := next_handle w; issued := issued w |}.

Definition setIsRunning (v : bool) (w : World) : World :=
  {| banks := banks w; selectedBank := selectedBank w; isRunning := v;
     logs := logs w; results := results w; showResults := showResults w;
     wsConnected := wsConnected w; wsRef := wsRef w;
     reconnectTimeoutRef := reconnectTimeoutRef w; sockets := sockets w;
     timers := timers w; requests := requests w;
     next_handle := next_handle w; issued := issued w |}.

Definition setLogs (v : list LogEntry) (w : World) : World :=
  {| banks := banks w; selectedBank := selectedBank w; isRunning := isRunning w;
     logs := v; results := results w; showResults := showResults w;
     wsConnected := wsConnected w; wsRef := wsRef w;
     reconnectTimeoutRef := reconnectTimeoutRef w; sockets := sockets w;
     timers := timers w; requests := requests w;
     next_handle := next_handle w; issued := issued w |}.

Definition setResults (v : list ResultRow) (w : World) : World :=
  {| banks := banks w; selectedBank := selectedBank w; isRunning := isRunning w;
     logs := logs w; results := v; showResults := showResults w;
     wsConnected := wsConnected w; wsRef := wsRef w;
     reconnectTimeoutRef := reconnectTimeoutRef w; sockets := sockets w;
     timers := timers w; requests := requests w;
     next_handle := next_handle w; issued := issued w |}.

Definition setShowResults (v : bool) (w : World) : World :=
  {| banks := banks w; selectedBank := selectedBank w; isRunning := isRunning w;
     logs := logs w; results := results w; showResults := v;
     wsConnected := wsConnected w; wsRef := wsRef w;
     reconnectTimeoutRef := reconnectTimeoutRef w; sockets := sockets w;
     timers := timers w; requests := requests w;
     next_handle := next_handle w; issued := issued w |}.

Definition setWsConnected (v : bool) (w : World) : World :=
  {| banks := banks w; selectedBank := selectedBank w; isRunning := isRunning w;
     logs := logs w; results := results w; showResults := showResults w;
     wsConnected := v; wsRef := wsRef w;
     reconnectTimeoutRef := reconnectTimeoutRef w; sockets := sockets w;
     timers := timers w; requests := requests w;
     next_handle := next_handle w; issued := issued w |}.

Definition set_wsRef (v : option positive) (w : World) : World :=
  {| banks := banks w; selectedBank := selectedBank w; isRunning := isRunning w;
     logs := logs w; results := results w; showResults := showResults w;
     wsConnected := wsConnected w; wsRef := v;
     reconnectTimeoutRef := reconnectTimeoutRef w; sockets := sockets w;
     timers := timers w; requests := requests w;
     next_handle := next_handle w; issued := issued w |}.

Definition set_reconnectTimeoutRef (v : option positive) (w : World) : World :=
  {| banks := banks w; selectedBank := selectedBank w; isRunning := isRunning w;
     logs := logs w; results := results w; showResults := showResults w;
     wsConnected := wsConnected w; wsRef := wsRef w;
     reconnectTimeoutRef := v; sockets := sockets w;
     timers := timers w; requests := requests w;
     next_handle := next_handle w; issued := issued w |}.

(** *** The browser's side *)

Definition set_sockets (v : gmap positive ReadyState) (w : World) : World :=
  {| banks := banks w; selectedBank := selectedBank w; isRunning := isRunning w;
     logs := logs w; results := results w; showResults := showResults w;
     wsConnected := wsConnected w; wsRef := wsRef w;
     reconnectTimeoutRef := reconnectTimeoutRef w; sockets := v;
     timers := timers w; requests := requests w;
     next_handle := next_handle w; issued := issued w |}.

Definition set_timers (v : gmap positive Task) (w : World) : World :=
  {| banks := banks w; selectedBank := selectedBank w; isRunning := isRunning w;
     logs := logs w; results := results w; showResults := showResults w;
     wsConnected := wsConnected w; wsRef := wsRef w;
     reconnectTimeoutRef := reconnectTimeoutRef w; sockets := sockets w;
     timers := v; requests := requests w;
     next_handle := next_handle w; issued := issued w |}.

Definition set_requests (v : gmap positive Request) (w : World) : World :=
  {| banks := banks w; selectedBank := selectedBank w; isRunning := isRunning w;
     logs := logs w; results := results w; showResults := showResults w;
     wsConnected := wsConnected w; wsRef := wsRef w;
     reconnectTimeoutRef := reconnectTimeoutRef w; sockets := sockets w;
     timers := timers w; requests := v;
     next_handle := next_handle w; issued := issued w |}.

(** Hands out a fresh handle and records the command. *)
Definition issue (c : Command) (w : World) : World :=
  {| banks := banks w; selectedBank := selectedBank w; isRunning := isRunning w;
     logs := logs w; results := results w; showResults := showResults w;
     wsConnected := wsConnected w; wsRef := wsRef w;
     reconnectTimeoutRef := reconnectTimeoutRef w; sockets := sockets w;
     timers := timers w; requests := requests w;
     next_handle := Pos.succ (next_handle w); issued := issued w ++ [c] |}.

(** [setTimeout(task, delay)]: returns the timer id. *)
Definition setTimeout (task : Task) (delay : N) (w : World) : positive * World :=
  let t := next_handle w in
  (t, issue (CmdSetTimeout task delay) (set_timers (<[t := task]> (timers w)) w)).

(** [fetch(url, { method })], the continuation [k] suspended on it. *)
Definition fetch (method url : string) (k : Request) (w : World) : World :=
  let r := next_handle w in
  issue (CmdFetch method url None) (set_requests (<[r := k]> (requests w)) w).

(** [new WebSocket(url)] when it does not throw: the new socket. *)
Definition new_WebSocket (url : string) (w : World) : positive * World :=
  let c := next_handle w in
  (c, issue (CmdWebSocket url) (set_sockets (<[c := CONNECTING]> (sockets w)) w)).

(** ** Handlers *)

Definition banks_url : string := "http://localhost:8000/api/banks".
Definition results_url : string := "http://localhost:8000/api/results".
Definition start_url : string := "http://localhost:8000/api/start".
Definition ws_url : string := "ws://localhost:8000/ws".

(** [setLogs(prev => [...prev, { level, message, timestamp }])] *)
Definition addLog (env : Env) (lvl msg : Js.Value) (w : World) : World :=
  setLogs (logs w ++ [{| level := lvl; message := msg; timestamp := now env |}]) w.

(** *** A handler body that may throw

    The world reached so far, and the value computed or [None] when an
    exception is propagating: what was done before a [throw] stays done. *)
Definition Throwing (A : Type) : Type := World → World * option A.

Global Instance Throwing_ret : MRet Throwing := λ A a w, (w, Some a).
Global Instance Throwing_bind : MBind Throwing := λ A B f m w,
  match m w with
  | (w', Some a) => f a w'
  | (w', None) => (w', None)
  end.

(** An expression without side effects that may throw. *)
Definition eval {A} (o : option A) : Throwing A := λ w, (w, o).

(** A statement that cannot throw. *)
Definition act (f : World → World) : Throwing unit := λ w, (f w, Some tt).

(** [try { body } catch { handler }] *)
Definition try_catch (body : Throwing unit) (handler : World → World) (w : World) : World :=
  match body w with
  | (w', Some _) => w'
  | (w', None) => handler w'
  end.

(** *** BootstrapLoader: [fetchBanks] *)

(** What [await fetch(...)], [await response.json()] and the read of
    [data.banks] come to: an exception (the request failed, the body is not
    JSON, or [data] is [null]), or the [banks] member as the endpoint
    declares it, an array of banks, [None] when it is missing or [null]. *)
Inductive BanksOutcome :=
| BanksThrow
| BanksData (data_banks : option (list Bank)).

(** [fetchBanks(retryCount)] up to its first [await]. *)
Definition fetchBanks (retryCount : nat) (w : World) : World :=
  fetch "GET" banks_url (ReqBanks retryCount) w.

(** The rest of [fetchBanks(retryCount)], once the request has settled. *)
Definition fetchBanks_settled (env : Env) (retryCount : nat) (out : BanksOutcome)
    (w : World) : World :=
  match out with
  | BanksData data_banks =>
      match data_banks with
      | Some (b :: bs) =>
          addLog env (Js.Str "success")
            (Js.Str ("Loaded " +:+ pretty (length (b :: bs)) +:+ " bank(s)"))
            (setBanks (b :: bs) w)
      | _ =>
          if retryCount <? 3 then
            (setTimeout (TaskFetchBanks (retryCount + 1)) 2000%N w).2
          else
            addLog env (Js.Str "error") (Js.Str "No banks found in config") w
      end
  | BanksThrow =>
      if retryCount <? 3 then
        (setTimeout (TaskFetchBanks (retryCount + 1)) 2000%N
           (addLog env (Js.Str "warning")
              (Js.Str ("Retrying to fetch banks... (" +:+ pretty (retryCount + 1) +:+ "/3)"))
              w)).2
      else
        addLog env (Js.Str "error") (Js.Str "Failed to fetch banks. Check backend.") w
  end.

(** *** ResultsLoader: [fetchResults] *)

Inductive ResultsOutcome :=
| ResultsThrow
| ResultsData (data_results : option (list ResultRow)).

Definition fetchResults (w : World) : World :=
  fetch "GET" results_url ReqResults w.

Definition fetchResults_settled (env : Env) (out : ResultsOutcome) (w : World) : World :=
  match out with
  | ResultsData data_results =>
      addLog env (Js.Str "info")
        (Js.Str ("Found " +:+ pretty (length (default [] data_results)) +:+ " processed tenders"))
        (setShowResults true (setResults (default [] data_results) w))
  | ResultsThrow =>
      addLog env (Js.Str "error") (Js.Str "Failed to fetch results") w
  end.

(** *** JobController: [handleStart] *)

(** How [POST /api/start] settles: [fetch] rejects with an error whose
    [message] is [reason], or resolves with [response.ok]. *)
Inductive StartOutcome :=
| StartRejected (reason : string)
| StartResponse (ok : bool).

(** [handleStart] up to its [await]. *)
Definition handleStart (env : Env) (w : World) : World :=
  if bool_decide (selectedBank w = "") then w
  else if negb (wsConnected w) then w
  else
    let w := setIsRunning true w in
    let w := setLogs [] w in
    let w := setShowResults false w in
    let w := setResults [] w in
    let w := addLog env (Js.Str "info")
               (Js.Str ("Starting automation for " +:+ selectedBank w +:+ "...")) w in
    fetch "POST" start_url ReqStart w.

(** The [message] of the error the [try] block ends with, if any: that of
    the rejection, or of [new Error('Failed to start automation')] thrown
    on [!response.ok]. *)
Definition start_failure (out : StartOutcome) : option string :=
  match out with
  | StartRejected reason => Some reason
  | StartResponse false => Some "Failed to start automation"
  | StartResponse true => None
  end.

(** The rest of [handleStart]: past the [try] block, or in the [catch]. *)
Definition handleStart_settled (env : Env) (out : StartOutcome) (w : World) : World :=
  match start_failure out with
  | None => addLog env (Js.Str "success") (Js.Str "Automation started") w
  | Some err_message =>
      setIsRunning false
        (addLog env (Js.Str "error") (Js.Str ("Failed to start: " +:+ err_message)) w)
  end.

(** The START button: [disabled={isRunning || !selectedBank || !wsConnected}]. *)
Definition start_disabled (w : World) : bool :=
  isRunning w || bool_decide (selectedBank w = "") || negb (wsConnected w).

(** A click on START: a disabled button dispatches nothing. *)
Definition clickStart (env : Env) (w : World) : World :=
  if start_disabled w then w else handleStart env w.

(** The options BankSelector renders: [""] and every [bank.id]. *)
Definition selector_options (w : World) : list string :=
  "" :: (bank_id <$> banks w).

(** *** ConnectionManager: [connectWebSocket] and the socket's handlers *)

Definition connectWebSocket (env : Env) (w : World) : World :=
  if WebSocket_throws env then setWsConnected false w
  else
    let '(ws, w) := new_WebSocket ws_url w in
    set_wsRef (Some ws) w.

Definition onopen (env : Env) (w : World) : World :=
  addLog env (Js.Str "success") (Js.Str "Connected to server") (setWsConnected true w).

Definition onerror (w : World) : World := setWsConnected false w.

Definition onclose (env : Env) (w : World) : World :=
  let w := setWsConnected false w in
  match reconnectTimeoutRef w with
  | None =>
      let w := addLog env (Js.Str "warning") (Js.Str "Reconnecting to server...") w in
      let '(t, w) := setTimeout TaskReconnect 3000%N w in
      set_reconnectTimeoutRef (Some t) w
  | Some _ => w
  end.

(** The callback scheduled by [onclose]. *)
Definition reconnect (env : Env) (w : World) : World :=
  connectWebSocket env (set_reconnectTimeoutRef None w).

Section Router.

(** [JSON.parse]: [None] is the SyntaxError. *)
Variable JSON_parse : string → option Js.Value.

(** [message.type === lit] *)
Definition type_is (msg : Js.Value) (lit : string) : Throwing bool :=
  t ← eval (Js.get msg "type"); mret (Js.strict_eq t lit).

(** [`${message.k}`] *)
Definition member_text (msg : Js.Value) (k : string) : Throwing string :=
  v ← eval (Js.get msg k); eval (Js.ToString v).

Definition onmessage_body (env : Env) (data : string) : Throwing unit :=
  msg ← eval (JSON_parse data);
  is_log ← type_is msg "log";
  if is_log : bool then
    lvl ← eval (Js.get msg "level");
    m ← eval (Js.get msg "message");
    act (addLog env lvl m)
  else
  is_progress ← type_is msg "progress";
  if is_progress : bool then
    stage ← member_text msg "stage";
    current ← member_text msg "current";
    total ← member_text msg "total";
    note ← member_text msg "message";
    act (addLog env (Js.Str "progress")
           (Js.Str (stage +:+ ": " +:+ current +:+ "/" +:+ total +:+ " - " +:+ note)))
  else
  is_pdf_status ← type_is msg "pdf_status";
  if is_pdf_status : bool then
    status ← eval (Js.get msg "status");
    pdf_name ← member_text msg "pdf_name";
    reason ← member_text msg "reason";
    act (addLog env
           (Js.Str (if Js.strict_eq status "filtered" then "success" else "warning"))
           (Js.Str (pdf_name +:+ ": " +:+ reason)))
  else
  is_completion ← type_is msg "completion";
  if is_completion : bool then
    act (setIsRunning false);;
    act (addLog env (Js.Str "success") (Js.Str "Process completed. Loading results."));;
    act fetchResults
  else mret tt.

(** [ws.onmessage]: the whole body sits in [try { ... } catch {}]. *)
Definition onmessage (env : Env) (data : string) (w : World) : World :=
  try_catch (onmessage_body env data) (λ w', w') w.

(** ** The event loop *)

Inductive Event :=
| EvTimer (t : positive)
| EvBanksSettled (r : positive) (out : BanksOutcome)
| EvResultsSettled (r : positive) (out : ResultsOutcome)
| EvStartSettled (r : positive) (out : StartOutcome)
| EvOpen (ws : positive)
| EvMessage (ws : positive) (data : string)
| EvError (ws : positive)
| EvClose (ws : positive)
| EvSelect (value : string)
| EvClickStart.

Definition run_task (env : Env) (task : Task) (w : World) : World :=
  match task with
  | TaskFetchBanks retryCount => fetchBanks retryCount w
  | TaskReconnect => reconnect env w
  end.

Definition take_timer (t : positive) (w : World) : World :=
  set_timers (delete t (timers w)) w.

Definition take_request (r : positive) (w : World) : World :=
  set_requests (delete r (requests w)) w.

Definition set_readyState (ws : positive) (s : ReadyState) (w : World) : World :=
  set_sockets (<[ws := s]> (sockets w)) w.

(** One turn: [None] when the browser cannot deliver the event in this
    world (a timer that is not pending, a socket event out of the socket's
    life cycle, a selection that is not among the rendered options). *)
Definition step (env : Env) (e : Event) (w : World) : option World :=
  match e with
  | EvTimer t =>
      task ← timers w !! t;
      Some (run_task env task (take_timer t w))
  | EvBanksSettled r out =>
      match requests w !! r with
      | Some (ReqBanks retryCount) =>
          Some (fetchBanks_settled env retryCount out (take_request r w))
      | _ => None
      end
  | EvResultsSettled r out =>
      match requests w !! r with
      | Some ReqResults => Some (fetchResults_settled env out (take_request r w))
      | _ => None
      end
  | EvStartSettled r out =>
      match requests w !! r with
      | Some ReqStart => Some (handleStart_settled env out (take_request r w))
      | _ => None
      end
  | EvOpen ws =>
      match sockets w !! ws with
      | Some CONNECTING => Some (onopen env (set_readyState ws OPEN w))
      | _ => None
      end
  | EvMessage ws data =>
      match sockets w !! ws with
      | Some OPEN => Some (onmessage env data w)
      | _ => None
      end
  | EvError ws =>
      match sockets w !! ws with
      | Some CONNECTING | Some OPEN => Some (onerror w)
      | _ => None
      end
  | EvClose ws =>
      match sockets w !! ws with
      | Some CONNECTING | Some OPEN => Some (onclose env (set_readyState ws CLOSED w))
      | _ => None
      end
  | EvSelect value =>
      if negb (isRunning w) && bool_decide (value ∈ selector_options w)
      then Some (setSelectedBank value w)
      else None
  | EvClickStart => Some (clickStart env w)
  end.

Fixpoint run (evs : list (Env * Event)) (w : World) : option World :=
  match evs with
  | [] => Some w
  | (env, e) :: rest => w' ← step env e w; run rest w'
  end.

(** The component before its effects run. *)
Definition initial : World :=
  {| banks := []; selectedBank := ""; isRunning := false; logs := [];
     results := []; showResults := false; wsConnected := false;
     wsRef := None; reconnectTimeoutRef := None;
     sockets := ∅; timers := ∅; requests := ∅;
     next_handle := 1; issued := [] |}.

(** Mounting runs the two effects in order:
    [setTimeout(() => fetchBanks(), 1000)], then [connectWebSocket()]. *)
Definition mount (env : Env) : World :=
  connectWebSocket env (setTimeout (TaskFetchBanks 0) 1000%N initial).2.

End Router.

(** ** Statement vocabulary *)

(** The four discriminants the router knows. *)
Definition message_types : list string := ["log"; "progress"; "pdf_status"; "completion"].

(** [message.k] of a parsed object, [undefined] when missing. *)
Definition member (msg : Js.Value) (k : string) : Js.Value :=
  default Js.Undefined (Js.get msg k).

Definition entry (env : Env) (lvl msg : string) : LogEntry :=
  {| level := Js.Str lvl; message := Js.Str msg; timestamp := now env |}.

(** The loader neither waits for a retry nor for a response. *)
Definition loader_idle (w : World) : Prop :=
  (∀ t k, timers w !! t ≠ Some (TaskFetchBanks k)) ∧
  (∀ r k, requests w !! r ≠ Some (ReqBanks k)).

(** The list a response carries when [data.banks.length > 0]. *)
Definition nonempty_banks (out : BanksOutcome) : option (list Bank) :=
  match out with
  | BanksData (Some (b :: bs)) => Some (b :: bs)
  | _ => None
  end.

(** The entry logged when a failed attempt is retried: none for an empty
    response. *)
Definition retry_entries (env : Env) (retryCount : nat) (out : BanksOutcome) : list LogEntry :=
  match out with
  | BanksThrow =>
      [entry env "warning" ("Retrying to fetch banks... (" +:+ pretty (retryCount + 1) +:+ "/3)")]
  | BanksData _ => []
  end.

(** The text of the terminal error. *)
Definition terminal_message (out : BanksOutcome) : string :=
  match out with
  | BanksThrow => "Failed to fetch banks. Check backend."
  | BanksData _ => "No banks found in config"
  end.

(** ** Runs of the mounted component *)

(** A socket the browser may still deliver events for. *)
Definition live (w : World) (ws : positive) : Prop :=
  sockets w !! ws = Some CONNECTING ∨ sockets w !! ws = Some OPEN.

(** Reconnection attempts scheduled so far. *)
Definition reconnects_scheduled (w : World) : nat :=
  length (filter (λ c, c = CmdSetTimeout TaskReconnect 3000%N) (issued w)).

(** Requests for the bank list sent so far. *)
Definition banks_attempts (w : World) : nat :=
  length (filter (λ c, c = CmdFetch "GET" banks_url None) (issued w)).

(** Sockets constructed so far. *)
Definition sockets_opened (w : World) : nat :=
  length (filter (λ c, c = CmdWebSocket ws_url) (issued w)).

Definition is_close (e : Env * Event) : bool :=
  match e.2 with
  | EvClose _ => true
  | _ => false
  end.

(** Close events delivered in a run. *)
Definition closes (evs : list (Env * Event)) : nat :=
  length (filter (λ e, is_close e = true) evs).

(** What holds of every world a run can reach. *)
Record Inv (w : World) : Prop := {
  (* handles not handed out yet name nothing *)
  fresh_timers : ∀ i, (next_handle w ≤ i)%positive → timers w !! i = None;
  fresh_requests : ∀ i, (next_handle w ≤ i)%positive → requests w !! i = None;
  fresh_sockets : ∀ i, (next_handle w ≤ i)%positive → sockets w !! i = None;
  (* ConnectionManager: one live socket or one pending reconnect, never both *)
  live_unique : ∀ a b, live w a → live w b → a = b;
  live_no_token : ∀ ws, live w ws → reconnectTimeoutRef w = None;
  timer_token : ∀ t, timers w !! t = Some TaskReconnect → reconnectTimeoutRef w = Some t;
  token_timer : ∀ t, reconnectTimeoutRef w = Some t → timers w !! t = Some TaskReconnect;
  (* BootstrapLoader: one retry timer or one request, never both *)
  loader_timer : ∀ t k, timers w !! t = Some (TaskFetchBanks k) →
    k ≤ 3 ∧ banks_attempts w = k ∧ banks w = [];
  loader_timer_unique : ∀ t t' k k',
    timers w !! t = Some (TaskFetchBanks k) →
    timers w !! t' = Some (TaskFetchBanks k') → t = t';
  loader_request : ∀ r k, requests w !! r = Some (ReqBanks k) →
    k ≤ 3 ∧ banks_attempts w = k + 1 ∧ banks w = [];
  loader_request_unique : ∀ r r' k k',
    requests w !! r = Some (ReqBanks k) →
    requests w !! r' = Some (ReqBanks k') → r = r';
  loader_exclusive : ∀ t k r k',
    timers w !! t = Some (TaskFetchBanks k) →
    requests w !! r = Some (ReqBanks k') → False;
  attempts_bounded : banks_attempts w ≤ 4;
  (* the selector offers nothing but the empty choice and the listed ids *)
  selection_listed : selectedBank w ∈ selector_options w;
}.

(** ** The rest of the component *)

(** *** What is rendered from the state *)

(** [{showResults && results.length > 0 && (<ResultsTable ... />)}] *)
Definition results_table_visible (w : World) : bool :=
  showResults w && (0 <? length (results w)).

(** LogPanel's [getLogStyle]: a [switch] on the level, by strict equality. *)
Record LogStyle := {
  icon : string;
  bgColor : string;
  textColor : string;
  borderColor : string;
}.

Definition default_style : LogStyle :=
  {| icon := "•"; bgColor := "bg-white"; textColor := "text-[#2C4A66]";
     borderColor := "border-l-[#9fb7c4]" |}.

Definition getLogStyle (lvl : Js.Value) : LogStyle :=
  if Js.strict_eq lvl "success" then
    {| icon := "✓"; bgColor := "bg-green-100"; textColor := "text-green-700";
       borderColor := "border-l-green-500" |}
  else if Js.strict_eq lvl "error" then
    {| icon := "✗"; bgColor := "bg-red-100"; textColor := "text-red-700";
       borderColor := "border-l-red-500" |}
  else if Js.strict_eq lvl "warning" then
    {| icon := "⚠"; bgColor := "bg-yellow-100"; textColor := "text-yellow-700";
       borderColor := "border-l-yellow-500" |}
  else if Js.strict_eq lvl "progress" then
    {| icon := "→"; bgColor := "bg-[#E2F4F6]"; textColor := "text-[#2C4A66]";
       borderColor := "border-l-[#53C3D0]" |}
  else default_style.

(** The levels the component writes by itself. *)
Definition own_levels : list string := ["info"; "success"; "warning"; "error"; "progress"].

(** A value placed in JSX as a child, [{v}].  React renders a string or a
    number as text, nothing for a boolean, [null] or [undefined], an array
    child by child, and throws on a plain object (Objects are not valid as
    a React child). *)
Fixpoint React_child (v : Js.Value) : bool :=
  match v with
  | Js.Obj _ => false
  | Js.Arr elems => forallb React_child elems
  | _ => true
  end.

(** Whether LogPanel renders the log.  Of an entry it places
    [{log.message}] and [{log.timestamp}] (a string) in the tree and hands
    [log.level] to [getLogStyle], which accepts any value: the render
    throws exactly when some message is not a valid child. *)
Definition LogPanel_renders (logs : list LogEntry) : bool :=
  forallb (λ log, React_child (message log)) logs.

(** *** Teardown *)

(** The cleanup of the second effect, run at unmount:
    [if (wsRef.current) wsRef.current.close()], then
    [if (reconnectTimeoutRef.current) clearTimeout(reconnectTimeoutRef.current)].
    The result names the socket [close()] is called on; the call itself
    runs no handler, the browser delivers the socket's close event in a
    later turn, to the [onclose] still installed.  The ref keeps the id of
    the cancelled timer. *)
Definition cleanup (w : World) : option positive * World :=
  (wsRef w,
   match reconnectTimeoutRef w with
   | Some t => take_timer t w
   | None => w
   end).

(** *** Counting and classifying *)

(** Requests for the results sent so far. *)
Definition results_requests (w : World) : nat :=
  length (filter (λ c, c = CmdFetch "GET" results_url None) (issued w)).

(** Start commands sent so far. *)
Definition start_requests (w : World) : nat :=
  length (filter (λ c, c = CmdFetch "POST" start_url None) (issued w)).


Section Frames.

Variable JSON_parse : string → option Js.Value.

(** The frame parses to a message whose [type] is ['completion']. *)
Definition is_completion_frame (data : string) : bool :=
  match JSON_parse data with
  | Some msg =>
      match Js.get msg "type" with
      | Some t => Js.strict_eq t "completion"
      | None => false
      end
  | None => false
  end.

Definition is_completion (e : Env * Event) : bool :=
  match e.2 with
  | EvMessage _ data => is_completion_frame data
  | _ => false
  end.

(** Completion frames delivered in a run. *)
Definition completions (evs : list (Env * Event)) : nat :=
  length (filter (λ e, is_completion e = true) evs).

Definition is_passing_click (w : World) (e : Event) : bool :=
  match e with
  | EvClickStart => negb (start_disabled w)
  | _ => false
  end.

(** The entry a [log] frame received at [f.1] leaves: [message.level] and
    [message.message] as they are. *)
Definition log_entry_of (f : Env * string) : LogEntry :=
  let msg := default Js.Undefined (JSON_parse f.2) in
  {| level := member msg "level"; message := member msg "message";
     timestamp := now f.1 |}.

(** The events that deliver the frames [fs], in order, on the socket [ws]. *)
Definition deliveries (ws : positive) (fs : list (Env * string)) : list (Env * Event) :=
  (λ f, (f.1, EvMessage ws f.2)) <$> fs.

End Frames.

(** What more holds of every world a run can reach: a run in progress has
    a bank selected; the component believes itself connected only while the
    socket in [wsRef] is open; a live socket is the one in [wsRef]. *)
Record ViewInv (w : World) : Prop := {
  running_selected : isRunning w = true → selectedBank w ≠ "";
  connected_open :
    wsConnected w = true → ∃ ws, wsRef w = Some ws ∧ sockets w !! ws = Some OPEN;
  live_ref : ∀ ws, live w ws → wsRef w = Some ws;
}.

(** ** ResultsTable *)

(** The table is a component of its own, rendered by App while
    [results_table_visible] with App's [results] as its prop.  Its one
    handler, [handleDownload], reads no state of App and writes none: it
    sends a request and, when that settles, saves the body or alerts. *)

Definition download_origin : string := "http://localhost:8000".

(** How [await fetch(...)] and [await response.blob()] come out: the
    [fetch] rejects, or resolves with a response ([ok] or not: the handler
    never reads it) whose [blob()] rejects ([None]) or yields the body. *)
Inductive DownloadOutcome :=
| DownloadRejected
| DownloadResponse (ok : bool) (blob : option string).

(** What [handleDownload] does to the page once settled: [a.click()] on an
    anchor whose [href] is an object URL of the blob and whose [download]
    is the file name, or [alert(text)]. *)
Inductive PageAction :=
| ActSave (filename blob : string)
| ActAlert (text : string).

(** The page: App's world, the calls of [handleDownload] suspended at
    their [await] (each holding its [tenderName]), the requests they have
    sent and the actions they have ended in. *)
Record Page := {
  app : World;
  downloads : gmap positive string;
  next_download : positive;
  requested : list Command;
  actions : list PageAction;
}.

Definition set_app (w : World) (p : Page) : Page :=
  {| app := w; downloads := downloads p; next_download := next_download p;
     requested := requested p; actions := actions p |}.

(** [handleDownload(downloadUrl, tenderName)] up to its first [await]:
    [fetch(`http://localhost:8000${downloadUrl}`)], a GET without a body. *)
Definition handleDownload (downloadUrl tenderName : string) (p : Page) : Page :=
  {| app := app p;
     downloads := <[next_download p := tenderName]> (downloads p);
     next_download := Pos.succ (next_download p);
     requested := requested p ++ [CmdFetch "GET" (download_origin +:+ downloadUrl) None];
     actions := actions p |}.

(** The rest of the call [d] of [handleDownload]: the anchor is clicked
    with [a.download = `${tenderName}_forms.zip`], or the [catch] alerts. *)
Definition handleDownload_settled (d : positive) (tenderName : string)
    (out : DownloadOutcome) (p : Page) : Page :=
  {| app := app p;
     downloads := delete d (downloads p);
     next_download := next_download p;
     requested := requested p;
     actions := actions p ++
       [match out with
        | DownloadResponse _ (Some blob) => ActSave (tenderName +:+ "_forms.zip") blob
        | _ => ActAlert "Download failed"
        end] |}.

Section Downloads.

Variable JSON_parse : string → option Js.Value.

(** The events of the page: those of App, a click on the Download ZIP
    button of row [i] of the table, a download settling. *)
Inductive PageEvent :=
| EvApp (e : Event)
| EvClickDownload (i : nat)
| EvDownloadSettled (d : positive) (out : DownloadOutcome).

(** One turn of the page.  The button of row [i] exists while the table is
    rendered and [results] has a row [i]; its [onClick] is
    [() => handleDownload(r.download_url, r.tender_name)]. *)
Definition page_step (env : Env) (e : PageEvent) (p : Page) : option Page :=
  match e with
  | EvApp e =>
      w ← step JSON_parse env e (app p);
      Some (set_app w p)
  | EvClickDownload i =>
      if results_table_visible (app p) then
        r ← results (app p) !! i;
        Some (handleDownload (download_url r) (tender_name r) p)
      else None
  | EvDownloadSettled d out =>
      tenderName ← downloads p !! d;
      Some (handleDownload_settled d tenderName out p)
  end.

Fixpoint page_run (evs : list (Env * PageEvent)) (p : Page) : option Page :=
  match evs with
  | [] => Some p
  | (env, e) :: rest => p' ← page_step env e p; page_run rest p'
  end.

Definition page_mount (env : Env) : Page :=
  {| app := mount env; downloads := ∅; next_download := 1;
     requested := []; actions := [] |}.

End Downloads.







(** The calls of [handleDownload] in flight are numbered below the next
    one, and each request sent is in flight or has ended in an action. *)
Record DownloadInv (p : Page) : Prop := {
  fresh_downloads : ∀ d, (next_download p ≤ d)%positive → downloads p !! d = None;
  downloads_accounted : length (actions p) + size (downloads p) = length (requested p);
}.

(** ** Scenario data *)

(** JSON text, written with apostrophes in place of the double quotes. *)
Fixpoint json (s : string) : string :=
  match s with
  | EmptyString => EmptyString
  | String c rest =>
      String (if Ascii.eqb c "'"%char then "034"%char else c) (json rest)
  end.

Definition frame_completion : string := json "{'type':'completion'}".

Definition frame_progress : string :=
  json "{'type':'progress','stage':'scan','current':2,'total':5,'message':'scanning page'}".

Definition frame_filtered : string :=
  json "{'type':'pdf_status','pdf_name':'doc1.pdf','status':'filtered','reason':'matched keyword'}".

Definition frame_skipped : string :=
  json "{'type':'pdf_status','pdf_name':'doc2.pdf','status':'skipped','reason':'no keyword'}".

Definition frame_odd_name : string :=
  json "{'type':'pdf_status','pdf_name':{'toString':1},'status':'filtered','reason':'matched keyword'}".

Definition frame_heartbeat : string := json "{'type':'heartbeat'}".

Definition frame_null : string := "null".

Definition frame_garbage : string := "<html>502 Bad Gateway</html>".

Definition value_filtered : Js.Value :=
  Js.Obj [("type", Js.Str "pdf_status"); ("pdf_name", Js.Str "doc1.pdf");
          ("status", Js.Str "filtered"); ("reason", Js.Str "matched keyword")].

Definition value_odd_name : Js.Value :=
  Js.Obj [("type", Js.Str "pdf_status"); ("pdf_name", Js.Obj [("toString", Js.Num "1")]);
          ("status", Js.Str "filtered"); ("reason", Js.Str "matched keyword")].

(** [JSON.parse], tabulated on the frames above; [frame_garbage] is not
    JSON, and no other text is used below. *)
Definition scenario_frames : list (string * Js.Value) :=
  [ (frame_completion, Js.Obj [("type", Js.Str "completion")]);
    (frame_progress,
     Js.Obj [("type", Js.Str "progress"); ("stage", Js.Str "scan");
             ("current", Js.Num "2"); ("total", Js.Num "5");
             ("message", Js.Str "scanning page")]);
    (frame_filtered, value_filtered);
    (frame_skipped,
     Js.Obj [("type", Js.Str "pdf_status"); ("pdf_name", Js.Str "doc2.pdf");
             ("status", Js.Str "skipped"); ("reason", Js.Str "no keyword")]);
    (frame_odd_name, value_odd_name);
    (frame_heartbeat, Js.Obj [("type", Js.Str "heartbeat")]);
    (frame_null, Js.Null) ].

Definition scenario_parse (data : string) : option Js.Value :=
  (λ p, p.2) <$> find (λ p, String.eqb p.1 data) scenario_frames.

(** A turn at clock reading [t], the WebSocket constructor not throwing. *)
Definition at_ (t : string) : Env := {| now := t; WebSocket_throws := false |}.

Definition BANK_A : Bank := {| bank_id := "BANK_A"; bank_name := "Bank A" |}.
Definition BANK_B : Bank := {| bank_id := "BANK_B"; bank_name := "Bank B" |}.

Definition mounted : World := mount (at_ "09:00:00").

(** The socket has opened. *)
Definition connected_world : World :=
  Eval vm_compute in
    default mounted (run scenario_parse [(at_ "09:00:01", EvOpen 2)] mounted).

(** The list arrives at the first attempt, the socket opens, the operator
    picks a bank. *)
Definition session_ready : list (Env * Event) :=
  [ (at_ "09:00:01", EvTimer 1);
    (at_ "09:00:02", EvBanksSettled 3 (BanksData (Some [BANK_A; BANK_B])));
    (at_ "09:00:03", EvOpen 2);
    (at_ "09:00:04", EvSelect "BANK_A") ].

Definition ready_world : World :=
  Eval vm_compute in default mounted (run scenario_parse session_ready mounted).

(** ... and clicks START. *)
Definition session_running : list (Env * Event) :=
  session_ready ++ [ (at_ "09:00:05", EvClickStart) ].

Definition running_world : World :=
  Eval vm_compute in default mounted (run scenario_parse session_running mounted).

(** The socket opens, drops, the reconnect fires, the new socket fails and
    closes, the second reconnect fires and its socket opens. *)
Definition session_dropped_twice : list (Env * Event) :=
  [ (at_ "09:00:01", EvOpen 2);
    (at_ "09:05:00", EvClose 2);
    (at_ "09:05:03", EvTimer 3);
    (at_ "09:05:04", EvError 4);
    (at_ "09:05:04", EvClose 4);
    (at_ "09:05:07", EvTimer 5);
    (at_ "09:05:08", EvOpen 6) ].

Definition reconnected_world : World :=
  Eval vm_compute in default mounted (run scenario_parse session_dropped_twice mounted).

(** Three empty responses: the fourth request is in flight. *)
Definition session_three_empty : list (Env * Event) :=
  [ (at_ "09:00:01", EvTimer 1);
    (at_ "09:00:01", EvBanksSettled 3 (BanksData None));
    (at_ "09:00:03", EvTimer 4);
    (at_ "09:00:03", EvBanksSettled 5 (BanksData (Some [])));
    (at_ "09:00:05", EvTimer 6);
    (at_ "09:00:05", EvBanksSettled 7 (BanksData None));
    (at_ "09:00:07", EvTimer 8) ].

Definition fourth_attempt_world : World :=
  Eval vm_compute in default mounted (run scenario_parse session_three_empty mounted).

(** Three failures: the fourth request is in flight. *)
Definition session_three_failed : list (Env * Event) :=
  [ (at_ "09:00:01", EvTimer 1);
    (at_ "09:00:01", EvBanksSettled 3 BanksThrow);
    (at_ "09:00:03", EvTimer 4);
    (at_ "09:00:03", EvBanksSettled 5 BanksThrow);
    (at_ "09:00:05", EvTimer 6);
    (at_ "09:00:05", EvBanksSettled 7 BanksThrow);
    (at_ "09:00:07", EvTimer 8) ].

Definition last_attempt_world : World :=
  Eval vm_compute in default mounted (run scenario_parse session_three_failed mounted).

(** *** More frames and sessions *)

Definition frame_log_info : string :=
  json "{'type':'log','level':'info','message':'Scanning BANK_A'}".

Definition frame_log_bare : string := json "{'type':'log'}".

Definition value_log_info : Js.Value :=
  Js.Obj [("type", Js.Str "log"); ("level", Js.Str "info");
          ("message", Js.Str "Scanning BANK_A")].

Definition value_progress : Js.Value :=
  Js.Obj [("type", Js.Str "progress"); ("stage", Js.Str "scan");
          ("current", Js.Num "2"); ("total", Js.Num "5");
          ("message", Js.Str "scanning page")].

(** A [log] frame whose message is an object. *)
Definition frame_log_object : string :=
  json "{'type':'log','level':'error','message':{'code':502}}".

Definition value_log_object : Js.Value :=
  Js.Obj [("type", Js.Str "log"); ("level", Js.Str "error");
          ("message", Js.Obj [("code", Js.Num "502")])].

(** [JSON.parse] on the three [log] frames as well. *)
Definition log_parse (data : string) : option Js.Value :=
  if String.eqb data frame_log_info then Some value_log_info
  else if String.eqb data frame_log_bare then Some (Js.Obj [("type", Js.Str "log")])
  else if String.eqb data frame_log_object then Some value_log_object
  else scenario_parse data.

Definition log_frames : list (Env * string) :=
  [ (at_ "09:01:00", frame_log_info); (at_ "09:01:01", frame_log_bare) ].

Definition ROW_1 : ResultRow :=
  {| tender_name := "Road works"; description := "Resurfacing of the ring road";
     last_date := "2026-01-31"; forms_count := 3; download_url := "/api/download/1" |}.

(** The run completes, its results are requested, and the operator starts
    again before they arrive. *)
Definition session_restarted : list (Env * Event) :=
  session_running ++
  [ (at_ "09:10:00", EvMessage 2 frame_completion);
    (at_ "09:10:01", EvClickStart) ].

Definition restarted_world : World :=
  Eval vm_compute in default mounted (run scenario_parse session_restarted mounted).

Definition ROW_2 : ResultRow :=
  {| tender_name := "Bridge repair"; description := "Bearings of the east span";
     last_date := "2026-02-15"; forms_count := 1; download_url := "/api/download/2" |}.

(** The run completes, two rows arrive and the operator clicks the
    Download ZIP button of the second. *)
Definition session_download_clicked : list (Env * PageEvent) :=
  ((λ e, (e.1, EvApp e.2)) <$> session_running) ++
  [ (at_ "09:10:00", EvApp (EvMessage 2 frame_completion));
    (at_ "09:10:01", EvApp (EvResultsSettled 5 (ResultsData (Some [ROW_1; ROW_2]))));
    (at_ "09:11:00", EvClickDownload 1) ].


Definition mounted_page : Page := page_mount (at_ "09:00:00").

Definition downloading_page : Page :=
  Eval vm_compute in
    default mounted_page (page_run scenario_parse session_download_clicked mounted_page).


(** * Properties *)

Section Properties.

Variable JSON_parse : string → option Js.Value.

(** ** The router, frame by frame *)

Ltac route :=
  unfold onmessage, try_catch, onmessage_body, type_is, member_text, eval, act;
  unfold mbind, mret, Throwing_bind, Throwing_ret.

Lemma strict_eq_true v lit : Js.strict_eq v lit = true ↔ v = Js.Str lit.
Proof.
  destruct v; simpl; try (split; [discriminate | congruence]).
  rewrite String.eqb_eq. split; congruence.
Qed.

Lemma strict_eq_Str s lit : Js.strict_eq (Js.Str s) lit = bool_decide (s = lit).
Proof.
  simpl. destruct (String.eqb_spec s lit) as [->|Hne].
  - by rewrite bool_decide_eq_true_2.
  - by rewrite bool_decide_eq_false_2.
Qed.

Lemma ToString_printable v : is_Some (Js.ToString v) ↔ Js.printable v = true.
Proof.
  revert v. fix IH 1. intros [| |[]| | |xs|ps]; simpl; try (split; eauto; done).
  - induction xs as [|x xs IHxs]; simpl; [split; eauto|].
    rewrite andb_true_iff, <- IHxs, <- (IH x). clear IH.
    destruct x as [| |[]| | |ys|qs]; simpl;
      repeat match goal with
      | |- context [match ?o with Some _ => _ | None => _ end] => destruct o eqn:?; simpl
      | |- context [match ?l with [] => _ | _ :: _ => _ end] => destruct l eqn:?; simpl
      end; split; try (intros [[? ?] [? ?]]); try (intros [? ?]); simplify_eq; eauto.
  - destruct (Js.own ps "toString"); split; try (intros [? ?]); eauto; done.
Qed.

Lemma get_member msg k t : Js.get msg "type" = Some (Js.Str t) → Js.get msg k = Some (member msg k).
Proof. unfold member. destruct msg; simpl; try discriminate; done. Qed.

(** C8.  A frame that does not parse, and a parsed message whose [type] is
    none of [log], [progress], [pdf_status], [completion] (a [null] message,
    whose [type] cannot even be read, included), leaves the world as it
    was: no log entry, no state change, no command; whatever is thrown
    inside stays inside. *)
Theorem onmessage_ignores_bad_input env data w :
  (JSON_parse data = None ∨
   ∃ msg, JSON_parse data = Some msg ∧
          ∀ t, t ∈ message_types → Js.get msg "type" ≠ Some (Js.Str t)) →
  onmessage JSON_parse env data w = w ∧ (onmessage_body JSON_parse env data w).1 = w.
Proof.
  intros [Hparse | (msg & Hparse & Htype)]; route; rewrite Hparse; simpl; [done|].
  destruct (Js.get msg "type") as [t|] eqn:Hget; simpl; [|done].
  assert (∀ lit, lit ∈ message_types → Js.strict_eq t lit = false) as Hno.
  { intros lit Hlit. apply not_true_is_false. rewrite strict_eq_true.
    intros ->. by apply (Htype lit). }
  rewrite !Hno; simpl; [done | | | |]; unfold message_types; set_solver.
Qed.

(** C6.  A [completion] message, in whatever run state it arrives, leaves
    [isRunning] false, appends exactly one entry, of level success, and
    issues exactly one request for the results, whose continuation is the
    one of [fetchResults]. *)
Theorem completion_message env data msg w :
  JSON_parse data = Some msg →
  Js.get msg "type" = Some (Js.Str "completion") →
  let w' := onmessage JSON_parse env data w in
  isRunning w' = false ∧
  logs w' = logs w ++ [entry env "success" "Process completed. Loading results."] ∧
  issued w' = issued w ++ [CmdFetch "GET" results_url None] ∧
  requests w' = <[next_handle w := ReqResults]> (requests w) ∧
  w' = fetchResults (addLog env (Js.Str "success")
                       (Js.Str "Process completed. Loading results.")
                       (setIsRunning false w)).
Proof.
  intros Hparse Htype. route. rewrite Hparse. simpl. rewrite Htype. simpl. done.
Qed.

(** C9, as the code has it.  For a [pdf_status] message whose [pdf_name]
    and [reason] convert to strings, exactly one entry is appended: its
    level is success if and only if [status] is the string [filtered], and
    warning otherwise; its text is the two renderings joined by a colon and
    a space.  When a conversion throws, the [catch] swallows the error and
    the world is unchanged.  A value converts unless it is, or holds
    through arrays, an object with an own [toString] member. *)
Theorem pdf_status_message env data msg w :
  JSON_parse data = Some msg →
  Js.get msg "type" = Some (Js.Str "pdf_status") →
  let status := member msg "status" in
  let pdf_name := member msg "pdf_name" in
  let reason := member msg "reason" in
  (∀ n r, Js.ToString pdf_name = Some n → Js.ToString reason = Some r →
     ∃ lvl, onmessage JSON_parse env data w = addLog env (Js.Str lvl) (Js.Str (n +:+ ": " +:+ r)) w ∧
            logs (onmessage JSON_parse env data w) = logs w ++ [entry env lvl (n +:+ ": " +:+ r)] ∧
            (lvl = "success" ↔ status = Js.Str "filtered") ∧
            (lvl = "warning" ↔ status ≠ Js.Str "filtered")) ∧
  (Js.ToString pdf_name = None ∨ Js.ToString reason = None → onmessage JSON_parse env data w = w) ∧
  (∀ v, is_Some (Js.ToString v) ↔ Js.printable v = true).
Proof.
  intros Hparse Htype status pdf_name reason.
  pose proof (get_member msg "status" _ Htype) as Hs.
  pose proof (get_member msg "pdf_name" _ Htype) as Hn.
  pose proof (get_member msg "reason" _ Htype) as Hr.
  fold status in Hs. fold pdf_name in Hn. fold reason in Hr.
  split; [|split].
  - intros n r Hname Hreason.
    exists (if Js.strict_eq status "filtered" then "success" else "warning").
    assert (onmessage JSON_parse env data w =
            addLog env (Js.Str (if Js.strict_eq status "filtered" then "success" else "warning"))
              (Js.Str (n +:+ ": " +:+ r)) w) as ->.
    { route. rewrite Hparse. simpl. rewrite Htype. simpl.
      rewrite Hs. simpl. rewrite Hn. simpl. rewrite Hname. simpl.
      rewrite Hr. simpl. rewrite Hreason. done. }
    split; [done|]. split; [done|].
    rewrite <- strict_eq_true.
    destruct (Js.strict_eq status "filtered"); split; split; congruence.
  - intros Hthrow. route. rewrite Hparse. simpl. rewrite Htype. simpl.
    rewrite Hs. simpl. rewrite Hn. simpl.
    destruct (Js.ToString pdf_name) as [n|]; simpl; [|done].
    rewrite Hr. simpl.
    destruct (Js.ToString reason) as [r|]; simpl; [|done].
    destruct Hthrow; discriminate.
  - apply ToString_printable.
Qed.

(** ** JobController *)

Lemma handleStart_rejects env w :
  selectedBank w = "" ∨ wsConnected w = false → handleStart env w = w.
Proof.
  intros [Hsel | Hws]; unfold handleStart.
  - by rewrite bool_decide_eq_true_2.
  - rewrite Hws. simpl. by case_bool_decide.
Qed.

Lemma handleStart_proceeds env w :
  selectedBank w ≠ "" → wsConnected w = true →
  handleStart env w =
    fetch "POST" start_url ReqStart
      (addLog env (Js.Str "info")
         (Js.Str ("Starting automation for " +:+ selectedBank w +:+ "..."))
         (setResults [] (setShowResults false (setLogs [] (setIsRunning true w))))).
Proof.
  intros Hsel Hws. unfold handleStart.
  rewrite bool_decide_eq_false_2 by done. rewrite Hws. done.
Qed.

(** C1, as the code has it.  [handleStart] returns at once, leaving the
    world untouched (no state change, no command, no log entry), when no
    bank is selected or the socket is not connected.  It has no test of
    [isRunning] of its own: that case is kept out by the START button,
    disabled while running, so that a click is a no-op in all three cases. *)
Theorem handleStart_guard env w :
  (selectedBank w = "" ∨ wsConnected w = false → handleStart env w = w) ∧
  (selectedBank w = "" ∨ wsConnected w = false ∨ isRunning w = true →
   clickStart env w = w).
Proof.
  split; [apply handleStart_rejects|].
  intros Hcase. unfold clickStart, start_disabled.
  destruct (isRunning w) eqn:Hrun; simpl; [done|].
  destruct Hcase as [Hsel | [Hws | Hr]]; [| |done].
  - rewrite bool_decide_eq_true_2 by done. done.
  - rewrite Hws. simpl. by rewrite orb_true_r.
Qed.

(** C7.  When the start request in flight fails (the fetch rejects, or the
    response is not ok), [isRunning] is false afterwards and exactly one
    entry is appended, of level error, carrying the reason; nothing else is
    issued. *)
Theorem start_failure_reverts env r out reason w :
  requests w !! r = Some ReqStart →
  start_failure out = Some reason →
  ∃ w', step JSON_parse env (EvStartSettled r out) w = Some w' ∧
        isRunning w' = false ∧
        logs w' = logs w ++ [entry env "error" ("Failed to start: " +:+ reason)] ∧
        issued w' = issued w ∧
        requests w' = delete r (requests w).
Proof.
  intros Hreq Hfail. simpl. rewrite Hreq. eexists. split; [done|].
  unfold handleStart_settled. rewrite Hfail. done.
Qed.

(** C10.  Whatever bank is selected, a start that passes the guards issues
    the same single command, a POST to the start endpoint without a body;
    the selection shows only in the text of the one log entry. *)
Theorem start_command_ignores_selection env1 env2 w1 w2 :
  selectedBank w1 ≠ "" → wsConnected w1 = true →
  selectedBank w2 ≠ "" → wsConnected w2 = true →
  issued (handleStart env1 w1) = issued w1 ++ [CmdFetch "POST" start_url None] ∧
  issued (handleStart env2 w2) = issued w2 ++ [CmdFetch "POST" start_url None] ∧
  logs (handleStart env1 w1) =
    [entry env1 "info" ("Starting automation for " +:+ selectedBank w1 +:+ "...")] ∧
  ∀ other, other ≠ "" →
    handleStart env1 (setSelectedBank other w1) =
    setSelectedBank other
      (setLogs [entry env1 "info" ("Starting automation for " +:+ other +:+ "...")]
         (handleStart env1 w1)).
Proof.
  intros Hs1 Hc1 Hs2 Hc2.
  rewrite (handleStart_proceeds env1 w1), (handleStart_proceeds env2 w2) by done.
  repeat split; try done.
  intros other Hother. by rewrite handleStart_proceeds.
Qed.

(** *** Preservation *)

Ltac map_cases :=
  repeat match goal with
  | H : context [<[_ := _]> _ !! _] |- _ => rewrite lookup_insert in H; case_decide; simplify_eq
  | H : context [delete _ _ !! _] |- _ => rewrite lookup_delete in H; case_decide; simplify_eq
  | |- context [<[_ := _]> _ !! _] => rewrite lookup_insert; case_decide; simplify_eq
  | |- context [delete _ _ !! _] => rewrite lookup_delete; case_decide; simplify_eq
  end.

Ltac count_issued :=
  repeat first
    [ rewrite filter_app | rewrite length_app | rewrite filter_cons | rewrite filter_nil
    | case_decide; simplify_eq ]; simpl.

Ltac learn H :=
  let T := type of H in
  lazymatch goal with
  | _ : T |- _ => fail
  | _ => pose proof H
  end.

Ltac saturate Hinv :=
  repeat match goal with
  | H : timers ?w !! ?t = Some TaskReconnect |- _ => learn (timer_token w Hinv t H)
  | H : reconnectTimeoutRef ?w = Some ?t |- _ => learn (token_timer w Hinv t H)
  | H : sockets ?w !! ?a = Some CONNECTING |- _ => learn (live_no_token w Hinv a (or_introl H))
  | H : sockets ?w !! ?a = Some OPEN |- _ => learn (live_no_token w Hinv a (or_intror H))
  | H : sockets ?w !! ?a = Some CONNECTING, H' : sockets ?w !! ?b = Some CONNECTING |- _ =>
      learn (live_unique w Hinv a b (or_introl H) (or_introl H'))
  | H : sockets ?w !! ?a = Some CONNECTING, H' : sockets ?w !! ?b = Some OPEN |- _ =>
      learn (live_unique w Hinv a b (or_introl H) (or_intror H'))
  | H : sockets ?w !! ?a = Some OPEN, H' : sockets ?w !! ?b = Some OPEN |- _ =>
      learn (live_unique w Hinv a b (or_intror H) (or_intror H'))
  | H : timers ?w !! ?t = Some (TaskFetchBanks ?k) |- _ => learn (loader_timer w Hinv t k H)
  | H : requests ?w !! ?r = Some (ReqBanks ?k) |- _ => learn (loader_request w Hinv r k H)
  | H : timers ?w !! ?t = Some (TaskFetchBanks ?k),
    H' : timers ?w !! ?t' = Some (TaskFetchBanks ?k') |- _ =>
      learn (loader_timer_unique w Hinv t t' k k' H H')
  | H : requests ?w !! ?r = Some (ReqBanks ?k),
    H' : requests ?w !! ?r' = Some (ReqBanks ?k') |- _ =>
      learn (loader_request_unique w Hinv r r' k k' H H')
  | H : timers ?w !! ?t = Some (TaskFetchBanks ?k),
    H' : requests ?w !! ?r = Some (ReqBanks ?k') |- _ =>
      destruct (loader_exclusive w Hinv t k r k' H H')
  | H : (Pos.succ (next_handle ?w) ≤ ?i)%positive |- _ =>
      learn (fresh_timers w Hinv i ltac:(lia));
      learn (fresh_requests w Hinv i ltac:(lia));
      learn (fresh_sockets w Hinv i ltac:(lia))
  | H : (next_handle ?w ≤ ?i)%positive |- _ =>
      learn (fresh_timers w Hinv i H);
      learn (fresh_requests w Hinv i H);
      learn (fresh_sockets w Hinv i H)
  end.

Ltac inv_goal Hinv :=
  unfold live, banks_attempts, selector_options; simpl;
  intros; map_cases; count_issued;
  repeat match goal with H : _ ∨ _ |- _ => destruct H end;
  map_cases; saturate Hinv;
  try match goal with
      | |- context [length (filter ?P (issued ?w))] =>
          change (length (filter P (issued w))) with (banks_attempts w)
      end;
  unfold selector_options in *;
  destruct_and?; simplify_eq; try done; try lia;
  try (match goal with H : banks _ = [] |- _ => rewrite H in *; simpl in * end; set_solver);
  try naive_solver (eauto with lia).

Lemma onmessage_cases env data w :
  onmessage JSON_parse env data w = w ∨
  (∃ lvl msg, onmessage JSON_parse env data w = addLog env lvl msg w) ∨
  onmessage JSON_parse env data w =
    fetchResults (addLog env (Js.Str "success")
                    (Js.Str "Process completed. Loading results.")
                    (setIsRunning false w)).
Proof.
  route. destruct (JSON_parse data) as [msg|]; simpl; [|by left].
  destruct (Js.get msg "type") as [t|]; simpl; [|by left].
  destruct (Js.strict_eq t "log"); simpl.
  { destruct (Js.get msg "level"); simpl; [|by left].
    destruct (Js.get msg "message"); simpl; [|by left]. right; left; eauto. }
  destruct (Js.strict_eq t "progress"); simpl.
  { repeat (match goal with
            | |- context [match ?o with Some _ => _ | None => _ end] => destruct o; simpl
            end; try by left).
    right; left; eauto. }
  destruct (Js.strict_eq t "pdf_status"); simpl.
  { repeat (match goal with
            | |- context [match ?o with Some _ => _ | None => _ end] => destruct o; simpl
            end; try by left).
    right; left; eauto. }
  destruct (Js.strict_eq t "completion"); simpl; [by right; right | by left].
Qed.

Lemma step_Inv env e w w' : Inv w → step JSON_parse env e w = Some w' → Inv w'.
Proof.
  intros Hinv Hstep.
  pose proof (fresh_timers w Hinv _ (Pos.le_refl _)) as Hft.
  pose proof (fresh_requests w Hinv _ (Pos.le_refl _)) as Hfr.
  pose proof (fresh_sockets w Hinv _ (Pos.le_refl _)) as Hfs.
  pose proof (attempts_bounded w Hinv) as Hbound.
  pose proof (selection_listed w Hinv) as Hsel.
  destruct e; simpl in Hstep.
  - destruct (timers w !! t) as [[k|]|] eqn:Ht; simplify_eq/=.
    + split; inv_goal Hinv.
    + unfold reconnect, connectWebSocket. destruct (WebSocket_throws env); simpl.
      * split; inv_goal Hinv.
      * split; inv_goal Hinv.
  - destruct (requests w !! r) as [[k| |]|] eqn:Hr; simplify_eq/=.
    unfold fetchBanks_settled.
    destruct out as [|[[|b bs]|]]; destruct (Nat.ltb_spec k 3); simpl.
    all: split; inv_goal Hinv.
  - destruct (requests w !! r) as [[k| |]|] eqn:Hr; simplify_eq/=.
    destruct out; simpl; split; inv_goal Hinv.
  - destruct (requests w !! r) as [[k| |]|] eqn:Hr; simplify_eq/=.
    unfold handleStart_settled. destruct out as [|[]]; simpl; split; inv_goal Hinv.
  - destruct (sockets w !! ws) as [[]|] eqn:Hs; simplify_eq/=.
    split; inv_goal Hinv.
  - destruct (sockets w !! ws) as [[]|] eqn:Hs; simplify_eq/=.
    destruct (onmessage_cases env data w) as [-> | [(lvl & msg & ->) | ->]].
    all: split; inv_goal Hinv.
  - destruct (sockets w !! ws) as [[]|] eqn:Hs; simplify_eq/=.
    all: split; inv_goal Hinv.
  - destruct (sockets w !! ws) as [[]|] eqn:Hs; simplify_eq/=.
    all: unfold onclose; simpl; destruct (reconnectTimeoutRef w) eqn:Htok; simpl.
    all: split; inv_goal Hinv.
  - destruct (isRunning w); simpl in Hstep; [done|]. case_bool_decide; simplify_eq/=.
    split; inv_goal Hinv.
  - simplify_eq. unfold clickStart. destruct (start_disabled w) eqn:Hdis; [done|].
    unfold start_disabled in Hdis. apply orb_false_iff in Hdis as [Hdis Hws].
    apply orb_false_iff in Hdis as [Hrun Hnone]. apply negb_false_iff in Hws.
    apply bool_decide_eq_false in Hnone.
    rewrite handleStart_proceeds by done.
    split; inv_goal Hinv.
Qed.

Lemma mount_Inv env0 : Inv (mount env0).
Proof.
  unfold mount, connectWebSocket, new_WebSocket, setTimeout, initial.
  destruct (WebSocket_throws env0); split;
    unfold live, banks_attempts, selector_options; simpl; intros;
    repeat match goal with H : _ ∨ _ |- _ => destruct H end;
    map_cases; rewrite ?lookup_empty in *; simplify_eq; try done; try lia; try set_solver.
Qed.

Lemma run_Inv evs w w' : Inv w → run JSON_parse evs w = Some w' → Inv w'.
Proof.
  revert w. induction evs as [|[env e] evs IH]; intros w Hinv Hrun; simpl in Hrun.
  - by simplify_eq.
  - destruct (step JSON_parse env e w) as [w1|] eqn:Hstep; simpl in Hrun; [|done].
    eapply IH; [|done]. by eapply step_Inv.
Qed.

(** Every world reached from the mounted component satisfies [Inv]. *)
Lemma reachable_Inv env0 evs w : run JSON_parse evs (mount env0) = Some w → Inv w.
Proof. apply run_Inv, mount_Inv. Qed.

(** A run passes through the worlds of its prefixes. *)
Lemma run_app evs1 evs2 w w' :
  run JSON_parse (evs1 ++ evs2) w = Some w' →
  ∃ w1, run JSON_parse evs1 w = Some w1 ∧ run JSON_parse evs2 w1 = Some w'.
Proof.
  revert w. induction evs1 as [|[env e] evs1 IH]; intros w Hrun; simpl in *.
  - eauto.
  - destruct (step JSON_parse env e w) as [w0|]; simpl in *; [|done]. by apply IH.
Qed.

(** *** Counting the commands issued *)

Lemma step_reconnects env e w w' :
  Inv w → step JSON_parse env e w = Some w' →
  reconnects_scheduled w' = reconnects_scheduled w + (if is_close (env, e) then 1 else 0).
Proof.
  intros Hinv Hstep. unfold reconnects_scheduled, is_close.
  destruct e; simpl in Hstep; simpl.
  - destruct (timers w !! t) as [[k|]|] eqn:Ht; simplify_eq/=.
    + count_issued. lia.
    + unfold reconnect, connectWebSocket. destruct (WebSocket_throws env); simpl;
        count_issued; lia.
  - destruct (requests w !! r) as [[k| |]|] eqn:Hr; simplify_eq/=.
    unfold fetchBanks_settled.
    destruct out as [|[[|b bs]|]]; destruct (Nat.ltb_spec k 3); simpl; count_issued; lia.
  - destruct (requests w !! r) as [[k| |]|] eqn:Hr; simplify_eq/=.
    destruct out; simpl; lia.
  - destruct (requests w !! r) as [[k| |]|] eqn:Hr; simplify_eq/=.
    unfold handleStart_settled. destruct out as [|[]]; simpl; lia.
  - destruct (sockets w !! ws) as [[]|] eqn:Hs; simplify_eq/=. lia.
  - destruct (sockets w !! ws) as [[]|] eqn:Hs; simplify_eq/=.
    destruct (onmessage_cases env data w) as [-> | [(lvl & msg & ->) | ->]]; simpl;
      count_issued; lia.
  - destruct (sockets w !! ws) as [[]|] eqn:Hs; simplify_eq/=; lia.
  - destruct (sockets w !! ws) as [[]|] eqn:Hs; simplify_eq/=.
    all: saturate Hinv; unfold onclose; simpl.
    all: match goal with H : reconnectTimeoutRef _ = None |- _ => rewrite H end; simpl.
    all: count_issued; lia.
  - destruct (isRunning w); simpl in Hstep; [done|]. case_bool_decide; simplify_eq/=. lia.
  - simplify_eq. unfold clickStart, handleStart.
    repeat (case_match; simpl; try lia). count_issued. lia.
Qed.

Lemma run_reconnects evs w w' :
  Inv w → run JSON_parse evs w = Some w' →
  reconnects_scheduled w' = reconnects_scheduled w + closes evs.
Proof.
  revert w. induction evs as [|[env e] evs IH]; intros w Hinv Hrun; simpl in Hrun.
  - simplify_eq. unfold closes. simpl. lia.
  - destruct (step JSON_parse env e w) as [w1|] eqn:Hstep; simpl in Hrun; [|done].
    rewrite (IH w1) by eauto using step_Inv.
    rewrite (step_reconnects env e w w1) by done.
    unfold closes. rewrite filter_cons.
    case_decide as Hc; simpl; destruct (is_close (env, e)); simplify_eq; lia.
Qed.

(** ** ConnectionManager *)

Lemma onclose_pending env w :
  reconnectTimeoutRef w ≠ None → onclose env w = setWsConnected false w.
Proof. unfold onclose. simpl. by destruct (reconnectTimeoutRef w). Qed.

Lemma onclose_idle env w :
  reconnectTimeoutRef w = None →
  onclose env w =
    set_reconnectTimeoutRef (Some (next_handle w))
      (setTimeout TaskReconnect 3000%N
         (addLog env (Js.Str "warning") (Js.Str "Reconnecting to server...")
            (setWsConnected false w))).2.
Proof. unfold onclose. simpl. by intros ->. Qed.

(** C3.  In every run of the mounted component, the reconnection attempts
    scheduled are exactly as many as the close events delivered, and at
    any moment at most one reconnect timer is pending, the one whose id
    [reconnectTimeoutRef] holds.  The guard itself: [onclose] in a world
    with a pending token only clears [wsConnected] (nothing scheduled,
    nothing logged); a fresh token comes with one warning entry and one
    3000 ms timer; the timer firing clears the token.  The same holds at
    every prefix of the run. *)
Theorem reconnect_single_flight env0 evs w :
  run JSON_parse evs (mount env0) = Some w →
  reconnects_scheduled w = closes evs ∧
  (∀ t t', timers w !! t = Some TaskReconnect →
           timers w !! t' = Some TaskReconnect → t = t') ∧
  (∀ t, timers w !! t = Some TaskReconnect ↔ reconnectTimeoutRef w = Some t) ∧
  (∀ env, reconnectTimeoutRef w ≠ None → onclose env w = setWsConnected false w) ∧
  (∀ env, reconnectTimeoutRef w = None →
     logs (onclose env w) = logs w ++ [entry env "warning" "Reconnecting to server..."] ∧
     issued (onclose env w) = issued w ++ [CmdSetTimeout TaskReconnect 3000%N] ∧
     reconnectTimeoutRef (onclose env w) = Some (next_handle w) ∧
     timers (onclose env w) = <[next_handle w := TaskReconnect]> (timers w)) ∧
  (∀ env t w', reconnectTimeoutRef w = Some t →
     step JSON_parse env (EvTimer t) w = Some w' →
     reconnectTimeoutRef w' = None ∧ timers w' !! t = None) ∧
  (∀ evs1 evs2, evs = evs1 ++ evs2 →
     ∃ w1, run JSON_parse evs1 (mount env0) = Some w1 ∧
           reconnects_scheduled w1 = closes evs1 ∧
           ∀ t t', timers w1 !! t = Some TaskReconnect →
                   timers w1 !! t' = Some TaskReconnect → t = t').
Proof.
  intros Hrun. pose proof (reachable_Inv _ _ _ Hrun) as Hinv.
  assert (∀ evs0 w0, run JSON_parse evs0 (mount env0) = Some w0 →
            reconnects_scheduled w0 = closes evs0) as Hcount.
  { intros evs0 w0 Hrun0.
    rewrite (run_reconnects evs0 (mount env0) w0) by eauto using mount_Inv.
    unfold reconnects_scheduled, mount, connectWebSocket.
    by destruct (WebSocket_throws env0). }
  assert (∀ w0, Inv w0 → ∀ t t', timers w0 !! t = Some TaskReconnect →
            timers w0 !! t' = Some TaskReconnect → t = t') as Hone.
  { intros w0 Hinv0 t t' Ht Ht'. saturate Hinv0. congruence. }
  split; [|split; [|split; [|split; [|split; [|split]]]]].
  - by apply Hcount.
  - by apply (Hone w).
  - intros t. split; [apply (timer_token w Hinv) | apply (token_timer w Hinv)].
  - intros env. apply onclose_pending.
  - intros env Htok. by rewrite onclose_idle.
  - intros env t w' Htok Hstep. simpl in Hstep.
    rewrite (token_timer w Hinv t Htok) in Hstep. simplify_eq/=.
    unfold reconnect, connectWebSocket. destruct (WebSocket_throws env); simpl.
    + by rewrite lookup_delete_eq.
    + by rewrite lookup_delete_eq.
  - intros evs1 evs2 ->. destruct (run_app _ _ _ _ Hrun) as (w1 & Hrun1 & _).
    exists w1. split; [done|]. split; [by apply Hcount|].
    apply (Hone w1). by eapply reachable_Inv.
Qed.

(** C2, as the code has it.  [connectWebSocket] has no guard: whenever the
    constructor does not throw, a call makes a new socket, whatever the
    connection state, and stores it in [wsRef]; it logs nothing itself (the
    entry comes from [onopen], once per socket opened).  Duplicates are
    avoided by its callers only: in every run of the mounted component at
    most one socket is live, and none is while a reconnect is pending. *)
Theorem connectWebSocket_unguarded env0 evs w :
  run JSON_parse evs (mount env0) = Some w →
  (∀ env w0, WebSocket_throws env = false →
     sockets (connectWebSocket env w0) = <[next_handle w0 := CONNECTING]> (sockets w0) ∧
     wsRef (connectWebSocket env w0) = Some (next_handle w0) ∧
     sockets_opened (connectWebSocket env w0) = sockets_opened w0 + 1 ∧
     logs (connectWebSocket env w0) = logs w0 ∧
     wsConnected (connectWebSocket env w0) = wsConnected w0) ∧
  (∀ env ws w', step JSON_parse env (EvOpen ws) w = Some w' →
     logs w' = logs w ++ [entry env "success" "Connected to server"] ∧
     sockets w' !! ws = Some OPEN) ∧
  (∀ a b, live w a → live w b → a = b) ∧
  (∀ t ws, timers w !! t = Some TaskReconnect → ¬ live w ws) ∧
  sockets w !! next_handle w = None.
Proof.
  intros Hrun. pose proof (reachable_Inv _ _ _ Hrun) as Hinv.
  split; [|split; [|split; [|split]]].
  - intros env w0 Hctor. unfold connectWebSocket, sockets_opened. rewrite Hctor. simpl.
    repeat split; try done. count_issued. done.
  - intros env ws w' Hstep. simpl in Hstep.
    destruct (sockets w !! ws) as [[]|]; simplify_eq/=. by rewrite lookup_insert_eq.
  - apply (live_unique w Hinv).
  - intros t ws Ht Hlive. pose proof (live_no_token w Hinv ws Hlive).
    pose proof (timer_token w Hinv t Ht). congruence.
  - apply (fresh_sockets w Hinv). lia.
Qed.

(** [handleStart] never reads [banks]: the list can be replaced under the
    call without changing what it does. *)
Lemma handleStart_ignores_banks env bs w :
  handleStart env (setBanks bs w) = setBanks bs (handleStart env w).
Proof. unfold handleStart. simpl. by repeat case_match. Qed.


(** ** BootstrapLoader *)

Lemma step_idle env e w w' :
  Inv w → loader_idle w → step JSON_parse env e w = Some w' →
  loader_idle w' ∧ banks w' = banks w ∧ banks_attempts w' = banks_attempts w.
Proof.
  intros Hinv [Hnt Hnr] Hstep.
  pose proof (fresh_timers w Hinv _ (Pos.le_refl _)) as Hft.
  pose proof (fresh_requests w Hinv _ (Pos.le_refl _)) as Hfr.
  unfold loader_idle, banks_attempts.
  destruct e; simpl in Hstep.
  - destruct (timers w !! t) as [[k|]|] eqn:Ht; simplify_eq/=; [by destruct (Hnt t k)|].
    unfold reconnect, connectWebSocket. destruct (WebSocket_throws env); simpl;
      count_issued; (split; [split|done]); intros; map_cases; eauto.
  - destruct (requests w !! r) as [[k| |]|] eqn:Hr; simplify_eq/=. by destruct (Hnr r k).
  - destruct (requests w !! r) as [[k| |]|] eqn:Hr; simplify_eq/=.
    destruct out; simpl; (split; [split|done]); intros; map_cases; eauto.
  - destruct (requests w !! r) as [[k| |]|] eqn:Hr; simplify_eq/=.
    unfold handleStart_settled.
    destruct out as [|[]]; simpl; (split; [split|done]); intros; map_cases; eauto.
  - destruct (sockets w !! ws) as [[]|] eqn:Hs; simplify_eq/=. done.
  - destruct (sockets w !! ws) as [[]|] eqn:Hs; simplify_eq/=.
    destruct (onmessage_cases env data w) as [-> | [(lvl & msg & ->) | ->]]; simpl;
      count_issued; (split; [split|done]); intros; map_cases; eauto.
  - destruct (sockets w !! ws) as [[]|] eqn:Hs; simplify_eq/=; done.
  - destruct (sockets w !! ws) as [[]|] eqn:Hs; simplify_eq/=.
    all: unfold onclose; simpl; destruct (reconnectTimeoutRef w); simpl.
    all: count_issued; (split; [split|done]); intros; map_cases; eauto.
  - destruct (isRunning w); simpl in Hstep; [done|]. case_bool_decide; simplify_eq/=. done.
  - simplify_eq. unfold clickStart, handleStart.
    repeat (case_match; simpl; try done).
    count_issued; (split; [split|done]); intros; map_cases; eauto.
Qed.

Lemma run_idle evs w w' :
  Inv w → loader_idle w → run JSON_parse evs w = Some w' →
  loader_idle w' ∧ banks w' = banks w ∧ banks_attempts w' = banks_attempts w.
Proof.
  revert w. induction evs as [|[env e] evs IH]; intros w Hinv Hidle Hrun; simpl in Hrun.
  - by simplify_eq.
  - destruct (step JSON_parse env e w) as [w1|] eqn:Hstep; simpl in Hrun; [|done].
    destruct (step_idle env e w w1) as (Hidle1 & Hb & Ha); [done..|].
    destruct (IH w1) as (Hidle' & Hb' & Ha'); [by eapply step_Inv|done..|].
    split; [done|]. split; congruence.
Qed.

(** C4.  In every run of the mounted component at most four requests for
    the bank list are ever sent.  A request in flight is attempt
    [retryCount + 1], at most the fourth, and the list is still empty.  If
    it brings a non-empty list, the list is stored, one success entry with
    the count is logged and the loader is done.  If it fails or brings
    nothing, the list stays empty and, before the fourth attempt, exactly
    one retry is scheduled 2000 ms later (with a warning entry after a
    failure, none after an empty response); after the fourth, one error
    entry is logged and the loader is done.  A retry timer firing sends the
    next request.  Once done, the loader never sends again and the list is
    not touched. *)
Theorem fetchBanks_bounded_retry env0 evs w :
  run JSON_parse evs (mount env0) = Some w →
  banks_attempts w ≤ 4 ∧
  (∀ env r k out, requests w !! r = Some (ReqBanks k) →
     k ≤ 3 ∧ banks_attempts w = k + 1 ∧ banks w = [] ∧
     ∃ w', step JSON_parse env (EvBanksSettled r out) w = Some w' ∧
       match nonempty_banks out with
       | Some bs =>
           banks w' = bs ∧
           logs w' = logs w ++
             [entry env "success" ("Loaded " +:+ pretty (length bs) +:+ " bank(s)")] ∧
           issued w' = issued w ∧ loader_idle w'
       | None =>
           banks w' = [] ∧
           if k <? 3 then
             issued w' = issued w ++ [CmdSetTimeout (TaskFetchBanks (k + 1)) 2000%N] ∧
             timers w' !! next_handle w = Some (TaskFetchBanks (k + 1)) ∧
             logs w' = logs w ++ retry_entries env k out
           else
             logs w' = logs w ++ [entry env "error" (terminal_message out)] ∧
             issued w' = issued w ∧ loader_idle w'
       end) ∧
  (∀ env t k, timers w !! t = Some (TaskFetchBanks k) →
     ∃ w', step JSON_parse env (EvTimer t) w = Some w' ∧
           issued w' = issued w ++ [CmdFetch "GET" banks_url None] ∧
           requests w' !! next_handle w = Some (ReqBanks k)) ∧
  (loader_idle w → ∀ evs' w', run JSON_parse evs' w = Some w' →
     loader_idle w' ∧ banks w' = banks w ∧ banks_attempts w' = banks_attempts w).
Proof.
  intros Hrun. pose proof (reachable_Inv _ _ _ Hrun) as Hinv.
  split; [apply (attempts_bounded w Hinv)|]. split; [|split].
  - intros env r k out Hreq.
    destruct (loader_request w Hinv r k Hreq) as (Hk & Hatt & Hbanks).
    do 3 (split; [done|]). simpl. rewrite Hreq. eexists. split; [done|].
    assert (loader_idle (take_request r w)) as Hidle.
    { split; simpl.
      - intros t k' Ht. by destruct (loader_exclusive w Hinv t k' r k).
      - intros r' k' Hr'. map_cases.
        by destruct (H (loader_request_unique w Hinv r r' k k' Hreq Hr')). }
    unfold fetchBanks_settled.
    destruct out as [|[[|b bs]|]]; simpl; destruct (k <? 3) eqn:Hlt; simpl;
      rewrite ?app_nil_r, ?lookup_insert_eq; repeat split; try done.
    all: try (intros t k' Ht; simpl in Ht; by destruct (proj1 Hidle t k')).
    all: try (intros r' k' Hr'; simpl in Hr'; by destruct (proj2 Hidle r' k')).
  - intros env t k Ht. simpl. rewrite Ht. simpl. eexists. split; [done|].
    simpl. by rewrite lookup_insert_eq.
  - intros Hidle evs' w'. by apply run_idle.
Qed.

(** ** The router, continued *)

Lemma onmessage_log env data msg w :
  JSON_parse data = Some msg →
  Js.get msg "type" = Some (Js.Str "log") →
  onmessage JSON_parse env data w = addLog env (member msg "level") (member msg "message") w.
Proof.
  intros Hparse Htype. route. rewrite Hparse. simpl. rewrite Htype. simpl.
  rewrite (get_member msg "level" _ Htype), (get_member msg "message" _ Htype). done.
Qed.

Lemma is_completion_frame_true data :
  is_completion_frame JSON_parse data = true ↔
  ∃ msg, JSON_parse data = Some msg ∧ Js.get msg "type" = Some (Js.Str "completion").
Proof.
  unfold is_completion_frame. split.
  - destruct (JSON_parse data) as [msg|]; [|done].
    destruct (Js.get msg "type") as [t|] eqn:Htype; [|done].
    intros ->%strict_eq_true. eauto.
  - intros (msg & -> & ->). done.
Qed.

Lemma onmessage_completion env data w :
  is_completion_frame JSON_parse data = true →
  onmessage JSON_parse env data w =
    fetchResults (addLog env (Js.Str "success")
                    (Js.Str "Process completed. Loading results.")
                    (setIsRunning false w)).
Proof.
  intros (msg & Hparse & Htype)%is_completion_frame_true.
  route. rewrite Hparse. simpl. rewrite Htype. done.
Qed.

(** What a frame can do, case by case. *)
Lemma onmessage_outcome env data w :
  (is_completion_frame JSON_parse data = false ∧
   (onmessage JSON_parse env data w = w ∨
    (∃ msg, JSON_parse data = Some msg ∧ Js.get msg "type" = Some (Js.Str "log") ∧
            onmessage JSON_parse env data w =
              addLog env (member msg "level") (member msg "message") w) ∨
    (∃ lvl text, lvl ∈ ["progress"; "success"; "warning"] ∧
                 onmessage JSON_parse env data w =
                   addLog env (Js.Str lvl) (Js.Str text) w))) ∨
  (is_completion_frame JSON_parse data = true ∧
   onmessage JSON_parse env data w =
     fetchResults (addLog env (Js.Str "success")
                     (Js.Str "Process completed. Loading results.")
                     (setIsRunning false w))).
Proof.
  destruct (is_completion_frame JSON_parse data) eqn:Hc.
  { right. split; [done|]. by apply onmessage_completion. }
  left. split; [done|].
  destruct (JSON_parse data) as [msg|] eqn:Hparse.
  2: { left. route. by rewrite Hparse. }
  destruct (Js.get msg "type") as [t|] eqn:Htype.
  2: { left. route. rewrite Hparse. simpl. by rewrite Htype. }
  destruct (Js.strict_eq t "log") eqn:Hlog.
  { apply strict_eq_true in Hlog as ->. right; left. exists msg.
    split; [done|]. split; [done|]. by apply onmessage_log. }
  unfold is_completion_frame in Hc. rewrite Hparse, Htype in Hc.
  route. rewrite Hparse. simpl. rewrite Htype. simpl. rewrite Hlog. simpl.
  destruct (Js.strict_eq t "progress"); simpl.
  { repeat (match goal with
            | |- context [match ?o with Some _ => _ | None => _ end] => destruct o; simpl
            end; try by left).
    right; right. do 2 eexists. split; [|done]. set_solver. }
  destruct (Js.strict_eq t "pdf_status"); simpl.
  { repeat (match goal with
            | |- context [match ?o with Some _ => _ | None => _ end] => destruct o; simpl
            end; try by left).
    right; right. do 2 eexists. split; [|done].
    destruct (Js.strict_eq _ "filtered"); set_solver. }
  rewrite Hc. simpl. by left.
Qed.

Lemma LogPanel_renders_app xs ys :
  LogPanel_renders (xs ++ ys) = LogPanel_renders xs && LogPanel_renders ys.
Proof. apply forallb_app. Qed.

Lemma log_frames_run ws fs w :
  sockets w !! ws = Some OPEN →
  (∀ f, f ∈ fs → ∃ msg, JSON_parse f.2 = Some msg ∧
                         Js.get msg "type" = Some (Js.Str "log")) →
  run JSON_parse (deliveries ws fs) w =
    Some (setLogs (logs w ++ (log_entry_of JSON_parse <$> fs)) w).
Proof.
  revert w. induction fs as [|[env data] fs IH]; intros w Hopen Hlog; simpl.
  - rewrite app_nil_r. by destruct w.
  - rewrite Hopen. simpl.
    destruct (Hlog (env, data)) as (msg & Hparse & Htype); [set_solver|]. simpl in *.
    rewrite (onmessage_log env data msg w Hparse Htype).
    rewrite IH; [|done|set_solver]. simpl. f_equal.
    unfold log_entry_of at 2. simpl. rewrite Hparse. simpl.
    by rewrite <- app_assoc.
Qed.

(** X1.  Frames of type [log] whose message React can render, delivered on
    the open socket to a component whose log renders, leave one entry
    each, in the order of arrival, holding the frame's [level] and
    [message] as they are ([undefined] for a missing one).  After each of
    them LogPanel renders the log, and nothing else has changed. *)
Theorem log_frames_in_order ws fs w :
  sockets w !! ws = Some OPEN →
  LogPanel_renders (logs w) = true →
  (∀ f, f ∈ fs → ∃ msg, JSON_parse f.2 = Some msg ∧
                         Js.get msg "type" = Some (Js.Str "log") ∧
                         React_child (member msg "message") = true) →
  ∀ k,
    run JSON_parse (deliveries ws (take k fs)) w =
      Some (setLogs (logs w ++ (log_entry_of JSON_parse <$> take k fs)) w) ∧
    LogPanel_renders (logs w ++ (log_entry_of JSON_parse <$> take k fs)) = true.
Proof.
  intros Hopen Hold Hlog k.
  assert (∀ f, f ∈ take k fs → f ∈ fs) as Hsub by (intros f; apply subseteq_take).
  split.
  - apply log_frames_run; [done|]. intros f Hf.
    destruct (Hlog f (Hsub f Hf)) as (msg & ? & ? & _). eauto.
  - rewrite LogPanel_renders_app, Hold. simpl.
    apply forallb_forall. intros x Hx%list_elem_of_In.
    apply list_elem_of_fmap in Hx as (f & -> & Hf).
    destruct (Hlog f (Hsub f Hf)) as (msg & Hparse & _ & Hchild).
    unfold log_entry_of. rewrite Hparse. done.
Qed.

(** X2.  A [progress] frame whose four members convert to strings leaves
    exactly one entry, of level progress, reading
    [stage: current/total - message]; when a conversion throws nothing is
    appended. *)
Theorem progress_message env data msg w :
  JSON_parse data = Some msg →
  Js.get msg "type" = Some (Js.Str "progress") →
  match Js.ToString (member msg "stage"), Js.ToString (member msg "current"),
        Js.ToString (member msg "total"), Js.ToString (member msg "message") with
  | Some stage, Some current, Some total, Some note =>
      onmessage JSON_parse env data w =
        addLog env (Js.Str "progress")
          (Js.Str (stage +:+ ": " +:+ current +:+ "/" +:+ total +:+ " - " +:+ note)) w
  | _, _, _, _ => onmessage JSON_parse env data w = w
  end.
Proof.
  intros Hparse Htype. route. rewrite Hparse. simpl. rewrite Htype. simpl.
  rewrite (get_member msg "stage" _ Htype), (get_member msg "current" _ Htype),
    (get_member msg "total" _ Htype), (get_member msg "message" _ Htype). simpl.
  destruct (Js.ToString (member msg "stage")); simpl; [|done].
  destruct (Js.ToString (member msg "current")); simpl; [|done].
  destruct (Js.ToString (member msg "total")); simpl; [|done].
  destruct (Js.ToString (member msg "message")); simpl; done.
Qed.

(** ** One turn of the event loop, field by field *)

Ltac click_cases Hstep w :=
  unfold clickStart in Hstep;
  let Hdis := fresh "Hdis" in
  destruct (start_disabled w) eqn:Hdis;
  [|let Hrun := fresh "Hrun" in
    let Hnone := fresh "Hnone" in
    let Hws := fresh "Hws" in
    pose proof Hdis as Hrun; unfold start_disabled in Hrun;
    apply orb_false_iff in Hrun as [Hrun Hws];
    apply orb_false_iff in Hrun as [Hrun Hnone];
    apply negb_false_iff in Hws; apply bool_decide_eq_false in Hnone;
    rewrite (handleStart_proceeds _ w Hnone Hws) in Hstep];
  simplify_eq/=.

Ltac step_cases Hstep :=
  lazymatch type of Hstep with
  | step _ ?env ?e ?w = Some _ =>
      destruct e as [t|r out|r out|r out|ws|ws data|ws|ws|value|]; simpl in Hstep;
      [ destruct (timers w !! t) as [[k|]|] eqn:?; simplify_eq/=;
        [|unfold reconnect, connectWebSocket; destruct (WebSocket_throws env) eqn:?; simpl]
      | destruct (requests w !! r) as [[k| |]|] eqn:?; simplify_eq/=;
        unfold fetchBanks_settled;
        destruct out as [|[[|b bs]|]]; destruct (Nat.ltb_spec k 3); simpl
      | destruct (requests w !! r) as [[k| |]|] eqn:?; simplify_eq/=;
        destruct out as [|d]; simpl
      | destruct (requests w !! r) as [[k| |]|] eqn:?; simplify_eq/=;
        unfold handleStart_settled; destruct out as [reason|[]]; simpl
      | destruct (sockets w !! ws) as [[]|] eqn:?; simplify_eq/=
      | destruct (sockets w !! ws) as [[]|] eqn:?; try discriminate Hstep;
        let Hon := fresh "Hon" in
        destruct (onmessage_outcome env data w)
          as [[? [Hon | [(msg & ? & ? & Hon) | (lvl & text & ? & Hon)]]] | [? Hon]];
        rewrite Hon in Hstep; clear Hon; simplify_eq/=
      | destruct (sockets w !! ws) as [[]|] eqn:?; simplify_eq/=
      | destruct (sockets w !! ws) as [[]|] eqn:?; simplify_eq/=;
        unfold onclose; simpl; destruct (reconnectTimeoutRef w) eqn:?; simpl
      | destruct (isRunning w) eqn:?; simpl in Hstep; [done|];
        case_bool_decide; simplify_eq/=
      | click_cases Hstep w ]
  end.

(** X3.  The run state changes in three places only.  It becomes running
    by a click on START with a bank selected and the socket connected; it
    stops running by a completion frame or by the failure of the start
    request, and by nothing else: not by the socket closing, not by a
    timer, not by any other frame or response. *)
Theorem run_state_transitions env e w w' :
  step JSON_parse env e w = Some w' →
  (isRunning w = false → isRunning w' = true →
     e = EvClickStart ∧ selectedBank w ≠ "" ∧ wsConnected w = true) ∧
  (isRunning w = true → isRunning w' = false →
     (∃ ws data, e = EvMessage ws data ∧ is_completion_frame JSON_parse data = true) ∨
     (∃ r out reason, e = EvStartSettled r out ∧ start_failure out = Some reason)).
Proof.
  intros Hstep. step_cases Hstep; (split; intros; simpl in *; try congruence); eauto 8.
Qed.

(** X6.  The state update of a turn leaves the log as it was, or appends
    one entry to it, or is the click that starts a run and replaces the
    log by the one starting entry.  A log that LogPanel renders is one it
    still renders after the turn, but for one case, and always in that
    case: a [log] frame whose message is an object (or an array holding
    one) is appended as it is, and rendering [{log.message}] throws. *)
Theorem logs_append_only env e w w' :
  step JSON_parse env e w = Some w' →
  ((∃ new, logs w' = logs w ++ new ∧ length new ≤ 1) ∨
   (e = EvClickStart ∧ start_disabled w = false ∧
    logs w' = [entry env "info" ("Starting automation for " +:+ selectedBank w +:+ "...")])) ∧
  (LogPanel_renders (logs w) = true → LogPanel_renders (logs w') = false →
     ∃ ws data msg,
       e = EvMessage ws data ∧ JSON_parse data = Some msg ∧
       Js.get msg "type" = Some (Js.Str "log") ∧
       React_child (member msg "message") = false ∧
       logs w' = logs w ++ [log_entry_of JSON_parse (env, data)]) ∧
  (∀ ws data msg,
     e = EvMessage ws data → JSON_parse data = Some msg →
     Js.get msg "type" = Some (Js.Str "log") →
     React_child (member msg "message") = false →
     logs w' = logs w ++ [log_entry_of JSON_parse (env, data)] ∧
     LogPanel_renders (logs w') = false).
Proof.
  intros Hstep. split; [|split].
  - step_cases Hstep;
      first [ by right
            | left; eexists; split; [done|simpl; lia]
            | left; exists []; split; [by rewrite app_nil_r|simpl; lia] ].
  - intros Hold.
    step_cases Hstep; simpl; rewrite ?LogPanel_renders_app, ?Hold; simpl;
      intros Hnew; try discriminate Hnew.
    do 3 eexists. split; [done|]. split; [done|]. split; [done|].
    unfold log_entry_of. simpl.
    match goal with H : JSON_parse _ = Some _ |- _ => rewrite H end. simpl.
    split; [|done]. by destruct (React_child (member msg "message")).
  - intros ws data msg -> Hparse Htype Hchild. simpl in Hstep.
    destruct (sockets w !! ws) as [[]|]; try done.
    rewrite (onmessage_log env data msg w Hparse Htype) in Hstep. simplify_eq.
    unfold log_entry_of. simpl. rewrite Hparse. simpl. split; [done|].
    rewrite LogPanel_renders_app. unfold LogPanel_renders at 2. simpl.
    rewrite Hchild. by rewrite andb_false_r.
Qed.

(** X12.  Who writes what.  The bank list is written only by a response
    carrying a non-empty list; the results only by a start (emptied) or a
    successful results response (replaced whole); the selection only by the
    selector while not running; the results flag only by a start or a
    successful results response. *)
Theorem state_writers env e w w' :
  step JSON_parse env e w = Some w' →
  (banks w' ≠ banks w →
     ∃ r bs, e = EvBanksSettled r (BanksData (Some bs)) ∧ bs ≠ [] ∧ banks w' = bs) ∧
  (results w' ≠ results w →
     (e = EvClickStart ∧ results w' = []) ∨
     (∃ r d, e = EvResultsSettled r (ResultsData d) ∧ results w' = default [] d)) ∧
  (selectedBank w' ≠ selectedBank w → e = EvSelect (selectedBank w') ∧ isRunning w = false) ∧
  (showResults w' ≠ showResults w →
     (e = EvClickStart ∧ showResults w' = false) ∨
     (∃ r d, e = EvResultsSettled r (ResultsData d) ∧ showResults w' = true)).
Proof.
  intros Hstep.
  step_cases Hstep; simpl;
    (repeat match goal with |- _ ∧ _ => split end; intros Hne; try done); eauto 8.
Qed.



Lemma step_results_requests env e w w' :
  step JSON_parse env e w = Some w' →
  results_requests w' =
    results_requests w + (if is_completion JSON_parse (env, e) then 1 else 0).
Proof.
  intros Hstep. unfold results_requests, is_completion.
  step_cases Hstep; simpl;
    repeat match goal with
    | H : is_completion_frame _ _ = _ |- _ => rewrite H; clear H
    end;
    try count_issued; lia.
Qed.

(** X8.  In every run of the mounted component the results are requested
    exactly once per completion frame delivered, and never otherwise. *)
Theorem results_requested_per_completion env0 evs w :
  run JSON_parse evs (mount env0) = Some w →
  results_requests w = completions JSON_parse evs.
Proof.
  assert (∀ evs' w0 w1, run JSON_parse evs' w0 = Some w1 →
            results_requests w1 = results_requests w0 + completions JSON_parse evs') as Hrun.
  { induction evs' as [|[env e] evs' IH]; intros w0 w1 Hrun; simpl in Hrun.
    - simplify_eq. unfold completions. simpl. lia.
    - destruct (step JSON_parse env e w0) as [w2|] eqn:Hstep; simpl in Hrun; [|done].
      rewrite (IH w2 w1 Hrun), (step_results_requests env e w0 w2 Hstep).
      unfold completions. rewrite filter_cons.
      case_decide as Hc; simpl; destruct (is_completion JSON_parse (env, e)); simplify_eq; lia. }
  intros Hmount. rewrite (Hrun evs (mount env0) w Hmount).
  unfold results_requests, mount, connectWebSocket.
  by destruct (WebSocket_throws env0).
Qed.

(** X13.  The start command is sent by a click on the enabled START
    button and by nothing else, once per such click; the click finds the
    component not running, with a bank selected and the socket connected,
    and leaves it running. *)
Theorem start_sent_by_enabled_click env e w w' :
  step JSON_parse env e w = Some w' →
  start_requests w' = start_requests w + (if is_passing_click w e then 1 else 0) ∧
  (is_passing_click w e = true →
     isRunning w = false ∧ selectedBank w ≠ "" ∧ wsConnected w = true ∧
     isRunning w' = true).
Proof.
  intros Hstep. unfold start_requests.
  step_cases Hstep; simpl; (split; [try count_issued; try lia|try done]).
  all: try (rewrite Hdis; simpl; try done; lia).
Qed.

(** ** What the view can rely on *)

Lemma step_ViewInv env e w w' :
  Inv w → ViewInv w → step JSON_parse env e w = Some w' → ViewInv w'.
Proof.
  intros Hinv [Hsel Hconn Href] Hstep.
  pose proof (fresh_sockets w Hinv _ (Pos.le_refl _)) as Hfs.
  step_cases Hstep; (split; unfold live in *; simpl in *; [try done| |]).
  all: intros; map_cases.
  all: repeat match goal with H : _ ∨ _ |- _ => destruct H end; map_cases.
  all: saturate Hinv; simplify_eq; try done; try congruence; eauto.
  all: try (destruct Hconn as (ws0 & ? & ?); [done|]; saturate Hinv; simplify_eq; eauto; done).
  exists ws. split; [eauto|]. by rewrite lookup_insert_eq.
Qed.

Lemma mount_ViewInv env0 : ViewInv (mount env0).
Proof.
  unfold mount, connectWebSocket, new_WebSocket, setTimeout, initial.
  destruct (WebSocket_throws env0); split; unfold live; simpl; try done.
  - intros ws [H|H]; by rewrite lookup_empty in H.
  - intros ws [H|H]; map_cases; by rewrite ?lookup_empty in *.
Qed.

Lemma reachable_ViewInv env0 evs w :
  run JSON_parse evs (mount env0) = Some w → ViewInv w.
Proof.
  assert (∀ evs' w0 w1, Inv w0 → ViewInv w0 → run JSON_parse evs' w0 = Some w1 →
            ViewInv w1) as Hrun.
  { induction evs' as [|[env e] evs' IH]; intros w0 w1 Hinv Hview Hrun; simpl in Hrun.
    - by simplify_eq.
    - destruct (step JSON_parse env e w0) as [w2|] eqn:Hstep; simpl in Hrun; [|done].
      apply (IH w2 w1); eauto using step_Inv, step_ViewInv. }
  apply Hrun; [apply mount_Inv | apply mount_ViewInv].
Qed.

(** X4.  In every run of the mounted component, while a run is in
    progress a bank is selected and it is one of the listed banks: the
    selection cannot be emptied or changed under a running job. *)
Theorem running_has_listed_bank env0 evs w :
  run JSON_parse evs (mount env0) = Some w →
  isRunning w = true →
  selectedBank w ≠ "" ∧ selectedBank w ∈ bank_id <$> banks w.
Proof.
  intros Hrun Hrunning.
  pose proof (running_selected w (reachable_ViewInv _ _ _ Hrun) Hrunning) as Hne.
  split; [done|].
  pose proof (selection_listed w (reachable_Inv _ _ _ Hrun)) as Hsel.
  unfold selector_options in Hsel. apply elem_of_cons in Hsel as [?|?]; done.
Qed.

(** X5.  In every run of the mounted component the connection badge reads
    Connected only while the socket held in [wsRef] is open, and a socket
    that can still deliver events is the one held in [wsRef].  So START is
    enabled, and a start is sent, only while that socket is open. *)
Theorem connected_means_open_socket env0 evs w :
  run JSON_parse evs (mount env0) = Some w →
  (wsConnected w = true → ∃ ws, wsRef w = Some ws ∧ sockets w !! ws = Some OPEN) ∧
  (∀ ws, live w ws → wsRef w = Some ws) ∧
  (start_disabled w = false → ∃ ws, wsRef w = Some ws ∧ sockets w !! ws = Some OPEN).
Proof.
  intros Hrun. pose proof (reachable_ViewInv _ _ _ Hrun) as [Hsel Hconn Href].
  split; [done|]. split; [done|].
  intros Hdis. apply Hconn. unfold start_disabled in Hdis.
  apply orb_false_iff in Hdis as [_ Hws]. by apply negb_false_iff in Hws.
Qed.

(** X10.  Unmounting does not stop the reconnection.  In every run of the
    mounted component, if a socket is live at unmount the cleanup calls
    [close()] on it and cancels nothing, and the close event that follows
    finds the token empty and schedules a reconnect 3000 ms later; if a
    reconnect is pending instead, the cleanup cancels its timer and no
    live socket is left. *)
Theorem cleanup_leaves_reconnect env0 evs w :
  run JSON_parse evs (mount env0) = Some w →
  (∀ ws, live w ws →
     cleanup w = (Some ws, w) ∧
     ∀ env, ∃ w', step JSON_parse env (EvClose ws) (cleanup w).2 = Some w' ∧
                  issued w' = issued w ++ [CmdSetTimeout TaskReconnect 3000%N] ∧
                  timers w' !! next_handle w = Some TaskReconnect) ∧
  (∀ t, reconnectTimeoutRef w = Some t →
     (∀ t', timers (cleanup w).2 !! t' ≠ Some TaskReconnect) ∧
     (∀ ws, ¬ live (cleanup w).2 ws) ∧
     reconnectTimeoutRef (cleanup w).2 = Some t).
Proof.
  intros Hrun.
  pose proof (reachable_Inv _ _ _ Hrun) as Hinv.
  pose proof (reachable_ViewInv _ _ _ Hrun) as [Hsel Hconn Href].
  split.
  - intros ws Hlive.
    pose proof (live_no_token w Hinv ws Hlive) as Htok.
    assert (cleanup w = (Some ws, w)) as Hclean.
    { unfold cleanup. by rewrite (Href ws Hlive), Htok. }
    split; [done|]. intros env. rewrite Hclean. simpl.
    assert (∃ s, sockets w !! ws = Some s ∧ s ≠ CLOSED) as (s & Hs & Hne).
    { destruct Hlive as [H|H]; eauto. }
    rewrite Hs. destruct s; [| |done].
    all: eexists; split; [done|]; unfold onclose; simpl; rewrite Htok; simpl.
    all: by rewrite lookup_insert_eq.
  - intros t Htok. unfold cleanup. rewrite Htok. simpl.
    split; [|split; [|done]].
    + intros t' Ht'. map_cases. saturate Hinv. congruence.
    + intros ws Hlive. unfold live in Hlive. simpl in Hlive.
      pose proof (live_no_token w Hinv ws Hlive). congruence.
Qed.

(** X7.  When the results request settles with a body, the rows replace
    whatever was stored ([[]] when the body has none), the flag is set, the
    count logged is the number of rows stored and the table shows exactly
    when there is a row; when it fails, one error entry is logged and the
    rows and the flag stay as they were.  Either way the run state is not
    touched: a response that arrives during a run shows its rows during
    that run. *)
Theorem results_response env r out w :
  requests w !! r = Some ReqResults →
  ∃ w', step JSON_parse env (EvResultsSettled r out) w = Some w' ∧
        isRunning w' = isRunning w ∧ issued w' = issued w ∧
        match out with
        | ResultsData d =>
            results w' = default [] d ∧ showResults w' = true ∧
            logs w' = logs w ++
              [entry env "info"
                 ("Found " +:+ pretty (length (results w')) +:+ " processed tenders")] ∧
            results_table_visible w' = bool_decide (results w' ≠ [])
        | ResultsThrow =>
            results w' = results w ∧ showResults w' = showResults w ∧
            logs w' = logs w ++ [entry env "error" "Failed to fetch results"]
        end.
Proof.
  intros Hreq. simpl. rewrite Hreq. eexists. split; [done|].
  destruct out as [|d]; simpl; [done|].
  repeat split. unfold results_table_visible. simpl.
  by destruct (default [] d).
Qed.

Lemma own_level_style lvl :
  lvl ∈ own_levels →
  (getLogStyle (Js.Str lvl) = default_style ↔ lvl = "info").
Proof.
  unfold own_levels. intros Hlvl.
  repeat (apply elem_of_cons in Hlvl as [-> | Hlvl]; [by split|]).
  by apply elem_of_nil in Hlvl.
Qed.

Lemma own_entry_style env lvl text :
  lvl ∈ own_levels →
  ∃ l, l ∈ own_levels ∧ level (entry env lvl text) = Js.Str l ∧
       (getLogStyle (level (entry env lvl text)) = default_style ↔ l = "info").
Proof.
  intros Hlvl. exists lvl. split; [done|]. split; [done|]. by apply own_level_style.
Qed.

(** X11.  Where an entry of the log comes from.  After any turn, an entry
    was there before, or is the verbatim copy of a [log] frame, or was
    written by the component itself with one of its five levels; of the
    latter only info falls to the default branch of [getLogStyle], the
    other four have a style of their own. *)
Theorem entry_levels env e w w' x :
  step JSON_parse env e w = Some w' →
  x ∈ logs w' →
  x ∈ logs w ∨
  (∃ ws data, e = EvMessage ws data ∧ x = log_entry_of JSON_parse (env, data)) ∨
  (∃ lvl, lvl ∈ own_levels ∧ level x = Js.Str lvl ∧
          (getLogStyle (level x) = default_style ↔ lvl = "info")).
Proof.
  intros Hstep.
  step_cases Hstep; simpl; intros Hx; try (by left);
    rewrite ?elem_of_app, ?list_elem_of_singleton in Hx;
    repeat match goal with H : _ ∨ _ |- _ => destruct H end;
    try (by left); subst x.
  all: try (right; right; apply (own_entry_style env); unfold own_levels; set_solver).
  right; left. do 2 eexists. split; [done|].
  unfold log_entry_of. simpl.
  by match goal with H : JSON_parse _ = Some _ |- _ => rewrite H end.
Qed.

(** X14.  The bank list is written once.  In every run of the mounted
    component, once the list is non-empty the loader is done and no later
    event changes the list or sends another request for it. *)
Theorem banks_set_once env0 evs w :
  run JSON_parse evs (mount env0) = Some w →
  banks w ≠ [] →
  loader_idle w ∧
  ∀ evs' w', run JSON_parse evs' w = Some w' →
             banks w' = banks w ∧ banks_attempts w' = banks_attempts w.
Proof.
  intros Hrun Hbanks. pose proof (reachable_Inv _ _ _ Hrun) as Hinv.
  assert (loader_idle w) as Hidle.
  { split.
    - intros t k Ht. by destruct (loader_timer w Hinv t k Ht) as (_ & _ & ?).
    - intros r k Hr. by destruct (loader_request w Hinv r k Hr) as (_ & _ & ?). }
  split; [done|]. intros evs' w' Hrun'.
  by destruct (run_idle evs' w w' Hinv Hidle Hrun') as (_ & ? & ?).
Qed.

(** ** The page: App and its results table *)





Lemma size_delete_pending (m : gmap positive string) d name :
  m !! d = Some name → size m = S (size (delete d m)).
Proof.
  intros Hd. rewrite <- (insert_delete_id m d name Hd) at 1.
  rewrite map_size_insert_None; [done|]. by rewrite lookup_delete_eq.
Qed.

Lemma page_step_DownloadInv env e p p' :
  DownloadInv p → page_step JSON_parse env e p = Some p' → DownloadInv p'.
Proof.
  intros [Hfresh Hcount] Hstep. destruct e as [a|i|d out]; simpl in Hstep.
  - destruct (step JSON_parse env a (app p)); simplify_eq/=. by split.
  - destruct (results_table_visible (app p)); [|done].
    destruct (results (app p) !! i); simplify_eq/=. split; simpl.
    + intros d Hd. rewrite lookup_insert_ne by lia. apply Hfresh. lia.
    + rewrite map_size_insert_None by (apply Hfresh; lia).
      rewrite length_app. simpl. lia.
  - destruct (downloads p !! d) as [name|] eqn:Hd; simplify_eq/=. split; simpl.
    + intros d' Hd'. rewrite lookup_delete_ne; [by apply Hfresh|].
      intros ->. by rewrite Hfresh in Hd.
    + pose proof (size_delete_pending (downloads p) d name Hd) as Hsize.
      rewrite length_app. simpl. lia.
Qed.

Lemma reachable_DownloadInv env0 evs p :
  page_run JSON_parse evs (page_mount env0) = Some p → DownloadInv p.
Proof.
  assert (∀ evs' p0 p1, DownloadInv p0 → page_run JSON_parse evs' p0 = Some p1 →
            DownloadInv p1) as Hrun.
  { induction evs' as [|[env e] evs' IH]; intros p0 p1 Hinv Hrun; simpl in Hrun.
    - by simplify_eq.
    - destruct (page_step JSON_parse env e p0) as [p2|] eqn:Hstep; simpl in Hrun; [|done].
      eauto using page_step_DownloadInv. }
  apply Hrun. split; simpl; [done|]. by rewrite map_size_empty.
Qed.

(** X15.  A download ends in exactly one action.  In every run of the
    page each request sent by [handleDownload] is still in flight or has
    ended in one action, and a call in flight can always settle: with a
    body it saves the body as [<tender_name>_forms.zip], whether or not
    the response was [ok] (the status is never read); when the [fetch] or
    the read of the body fails it alerts Download failed.  It sends
    nothing more and leaves App's state alone. *)
Theorem download_outcome env0 evs p :
  page_run JSON_parse evs (page_mount env0) = Some p →
  length (actions p) + size (downloads p) = length (requested p) ∧
  ∀ env d tenderName out,
    downloads p !! d = Some tenderName →
    ∃ p', page_step JSON_parse env (EvDownloadSettled d out) p = Some p' ∧
          app p' = app p ∧ requested p' = requested p ∧
          downloads p' !! d = None ∧ size (downloads p) = S (size (downloads p')) ∧
          actions p' = actions p ++
            [match out with
             | DownloadResponse ok (Some blob) => ActSave (tenderName +:+ "_forms.zip") blob
             | DownloadResponse ok None => ActAlert "Download failed"
             | DownloadRejected => ActAlert "Download failed"
             end].
Proof.
  intros Hrun. destruct (reachable_DownloadInv env0 evs p Hrun) as [Hfresh Hcount].
  split; [done|]. intros env d tenderName out Hd. simpl. rewrite Hd. simpl.
  eexists. split; [done|]. simpl. split; [done|]. split; [done|].
  split; [by rewrite lookup_delete_eq|].
  split; [by apply (size_delete_pending _ _ tenderName)|].
  by destruct out as [|ok [blob|]].
Qed.

End Properties.

(** * Scenarios *)

Ltac evaluate := vm_compute; reflexivity.
Ltac conjuncts := repeat match goal with |- _ ∧ _ => split end.

Fact scenario_worlds_reached :
  run scenario_parse session_ready mounted = Some ready_world ∧
  run scenario_parse session_running mounted = Some running_world ∧
  run scenario_parse session_dropped_twice mounted = Some reconnected_world ∧
  run scenario_parse session_three_empty mounted = Some fourth_attempt_world ∧
  run scenario_parse session_three_failed mounted = Some last_attempt_world.
Proof. conjuncts; evaluate. Qed.

(** The sixth scenario of the specification: a skipped document logs a
    warning, a progress frame its counters. *)
Example skipped_and_progress :
  logs (onmessage scenario_parse (at_ "09:01:00") frame_skipped mounted) =
    [entry (at_ "09:01:00") "warning" "doc2.pdf: no keyword"] ∧
  logs (onmessage scenario_parse (at_ "09:01:01") frame_progress mounted) =
    [entry (at_ "09:01:01") "progress" "scan: 2/5 - scanning page"].
Proof. conjuncts; evaluate. Qed.

(** The fifth scenario of the specification: START with BANK_A selected,
    then a progress frame, then completion. *)
Example job_scenario :
  let w1 := clickStart (at_ "09:00:05") ready_world in
  let w2 := onmessage scenario_parse (at_ "09:00:09") frame_progress w1 in
  let w3 := onmessage scenario_parse (at_ "09:03:00") frame_completion w2 in
  isRunning w1 = true ∧
  logs w1 = [entry (at_ "09:00:05") "info" "Starting automation for BANK_A..."] ∧
  last (logs w2) = Some (entry (at_ "09:00:09") "progress" "scan: 2/5 - scanning page") ∧
  isRunning w3 = false ∧
  issued w3 = issued w2 ++ [CmdFetch "GET" results_url None].
Proof. cbv zeta. conjuncts; evaluate. Qed.

(** Four failures in a row: three warnings, then the terminal error; four
    requests sent, the list empty, nothing left pending. *)
Example four_failures :
  ∃ w, step scenario_parse (at_ "09:00:07") (EvBanksSettled 9 BanksThrow) last_attempt_world
         = Some w ∧
       banks w = [] ∧ banks_attempts w = 4 ∧
       last (logs w) = Some (entry (at_ "09:00:07") "error" "Failed to fetch banks. Check backend.") ∧
       timers w = ∅ ∧ requests w = ∅.
Proof. eexists. split; [evaluate|]. conjuncts; evaluate. Qed.

(** C1: with nothing selected [handleStart] does nothing; while running a
    click does nothing. *)
Lemma handleStart_guard_witness :
  handleStart (at_ "09:00:05") mounted = mounted ∧
  clickStart (at_ "09:00:06") running_world = running_world.
Proof.
  split.
  - apply (proj1 (handleStart_guard (at_ "09:00:05") mounted)). left. evaluate.
  - apply (proj2 (handleStart_guard (at_ "09:00:06") running_world)).
    right. right. evaluate.
Defined.

(** C1 fails as stated: called while running, with a bank selected and the
    socket connected, [handleStart] issues a second start command. *)
Lemma handleStart_while_running :
  isRunning running_world = true ∧
  selectedBank running_world = "BANK_A" ∧
  wsConnected running_world = true ∧
  handleStart (at_ "09:00:06") running_world ≠ running_world ∧
  issued (handleStart (at_ "09:00:06") running_world) =
    issued running_world ++ [CmdFetch "POST" start_url None].
Proof.
  conjuncts; try evaluate.
  intros Heq. apply (f_equal next_handle) in Heq. vm_compute in Heq. discriminate.
Qed.

(** C2: a call on the connected world makes one more socket. *)
Lemma connectWebSocket_unguarded_witness :
  sockets_opened (connectWebSocket (at_ "09:00:02") connected_world) =
    sockets_opened connected_world + 1 ∧
  sockets ready_world !! next_handle ready_world = None.
Proof.
  assert (run scenario_parse session_ready mounted = Some ready_world) as Hrun by evaluate.
  pose proof (connectWebSocket_unguarded scenario_parse (at_ "09:00:00") session_ready
                ready_world Hrun) as (Hcall & _ & _ & _ & Hfresh).
  split; [|exact Hfresh].
  destruct (Hcall (at_ "09:00:02") connected_world eq_refl) as (_ & _ & Hopened & _).
  exact Hopened.
Defined.

(** C2 fails as stated: called while the socket is open, [connectWebSocket]
    constructs a second socket next to it, and when that one opens the log
    gets its second "Connected to server". *)
Lemma connect_while_connected :
  wsConnected connected_world = true ∧
  sockets connected_world !! 2%positive = Some OPEN ∧
  sockets (connectWebSocket (at_ "09:00:02") connected_world) !! 2%positive = Some OPEN ∧
  sockets (connectWebSocket (at_ "09:00:02") connected_world) !! 3%positive = Some CONNECTING ∧
  issued (connectWebSocket (at_ "09:00:02") connected_world) =
    issued connected_world ++ [CmdWebSocket ws_url] ∧
  logs <$> step scenario_parse (at_ "09:00:03") (EvOpen 3)
             (connectWebSocket (at_ "09:00:02") connected_world) =
    Some [entry (at_ "09:00:01") "success" "Connected to server";
          entry (at_ "09:00:03") "success" "Connected to server"].
Proof. conjuncts; evaluate. Qed.

(** C3: two drops, two attempts scheduled. *)
Lemma reconnect_single_flight_witness :
  reconnects_scheduled reconnected_world = closes session_dropped_twice ∧
  closes session_dropped_twice = 2.
Proof.
  assert (run scenario_parse session_dropped_twice mounted = Some reconnected_world)
    as Hrun by evaluate.
  split; [|evaluate].
  exact (proj1 (reconnect_single_flight scenario_parse (at_ "09:00:00")
                  session_dropped_twice reconnected_world Hrun)).
Defined.

(** C4: after three empty responses the fourth attempt brings two banks. *)
Lemma fetchBanks_bounded_retry_witness :
  banks_attempts fourth_attempt_world = 3 + 1 ∧
  ∃ w, step scenario_parse (at_ "09:00:08")
         (EvBanksSettled 9 (BanksData (Some [BANK_A; BANK_B]))) fourth_attempt_world = Some w ∧
       banks w = [BANK_A; BANK_B] ∧
       logs w = logs fourth_attempt_world ++
                  [entry (at_ "09:00:08") "success" "Loaded 2 bank(s)"].
Proof.
  assert (run scenario_parse session_three_empty mounted = Some fourth_attempt_world)
    as Hrun by evaluate.
  assert (requests fourth_attempt_world !! 9%positive = Some (ReqBanks 3)) as Hreq
    by evaluate.
  pose proof (fetchBanks_bounded_retry scenario_parse (at_ "09:00:00") session_three_empty
                fourth_attempt_world Hrun) as (_ & Hsettle & _).
  destruct (Hsettle (at_ "09:00:08") 9%positive 3
              (BanksData (Some [BANK_A; BANK_B])) Hreq)
    as (_ & Hatt & _ & w & Hstep & Hbanks & Hlogs & _).
  split; [exact Hatt|]. exists w. split; [exact Hstep|]. split; [exact Hbanks | exact Hlogs].
Defined.


(** C6: a completion frame while running. *)
Lemma completion_message_witness :
  isRunning (onmessage scenario_parse (at_ "09:10:00") frame_completion running_world) = false ∧
  issued (onmessage scenario_parse (at_ "09:10:00") frame_completion running_world) =
    issued running_world ++ [CmdFetch "GET" results_url None].
Proof.
  assert (scenario_parse frame_completion = Some (Js.Obj [("type", Js.Str "completion")]))
    as Hparse by evaluate.
  destruct (completion_message scenario_parse (at_ "09:10:00") frame_completion
              (Js.Obj [("type", Js.Str "completion")]) running_world Hparse eq_refl)
    as (Hrun & _ & Hissued & _).
  split; [exact Hrun | exact Hissued].
Defined.

(** C7: the start request of the running world answered with a 500. *)
Lemma start_failure_reverts_witness :
  ∃ w, step scenario_parse (at_ "09:00:06") (EvStartSettled 4 (StartResponse false))
         running_world = Some w ∧
       isRunning w = false ∧
       logs w = logs running_world ++
                  [entry (at_ "09:00:06") "error" "Failed to start: Failed to start automation"].
Proof.
  assert (requests running_world !! 4%positive = Some ReqStart) as Hreq by evaluate.
  destruct (start_failure_reverts scenario_parse (at_ "09:00:06") 4%positive
              (StartResponse false) "Failed to start automation" running_world
              Hreq eq_refl)
    as (w & Hstep & Hrun & Hlogs & _).
  exists w. split; [exact Hstep|]. split; [exact Hrun | exact Hlogs].
Defined.

(** C8: a frame that is not JSON, and a frame of an unknown type. *)
Lemma onmessage_ignores_bad_input_witness :
  onmessage scenario_parse (at_ "09:02:00") frame_garbage running_world = running_world ∧
  onmessage scenario_parse (at_ "09:02:01") frame_heartbeat running_world = running_world.
Proof.
  split.
  - apply (onmessage_ignores_bad_input scenario_parse). left. evaluate.
  - apply (onmessage_ignores_bad_input scenario_parse). right.
    exists (Js.Obj [("type", Js.Str "heartbeat")]). split; [evaluate|].
    intros t Ht. unfold message_types in Ht.
    repeat (apply elem_of_cons in Ht as [-> | Ht]; [simpl; discriminate|]).
    by apply elem_of_nil in Ht.
Defined.

(** C9: the scenario of the specification, a filtered document. *)
Lemma pdf_status_message_witness :
  logs (onmessage scenario_parse (at_ "09:01:00") frame_filtered running_world) =
    logs running_world ++ [entry (at_ "09:01:00") "success" "doc1.pdf: matched keyword"].
Proof.
  assert (scenario_parse frame_filtered = Some value_filtered) as Hparse by evaluate.
  destruct (pdf_status_message scenario_parse (at_ "09:01:00") frame_filtered
              value_filtered running_world Hparse eq_refl) as (Happend & _ & _).
  destruct (Happend "doc1.pdf" "matched keyword" eq_refl eq_refl)
    as (lvl & _ & Hlogs & Hsuccess & _).
  rewrite Hlogs. rewrite (proj2 Hsuccess eq_refl). reflexivity.
Defined.

(** C9 fails as stated: a [pdf_status] frame whose [pdf_name] is an object
    with a [toString] member appends nothing. *)
Lemma pdf_status_unprintable_name :
  scenario_parse frame_odd_name = Some value_odd_name ∧
  Js.get value_odd_name "type" = Some (Js.Str "pdf_status") ∧
  Js.ToString (member value_odd_name "pdf_name") = None ∧
  logs (onmessage scenario_parse (at_ "09:01:00") frame_odd_name running_world) =
    logs running_world.
Proof. conjuncts; evaluate. Qed.

(** C10: the same command for either bank. *)
Lemma start_command_ignores_selection_witness :
  issued (handleStart (at_ "09:00:05") ready_world) =
    issued ready_world ++ [CmdFetch "POST" start_url None] ∧
  issued (handleStart (at_ "09:00:09") (setSelectedBank "BANK_B" ready_world)) =
    issued (setSelectedBank "BANK_B" ready_world) ++ [CmdFetch "POST" start_url None].
Proof.
  assert (selectedBank ready_world ≠ "") as Ha by (vm_compute; discriminate).
  assert (selectedBank (setSelectedBank "BANK_B" ready_world) ≠ "") as Hb
    by (vm_compute; discriminate).
  destruct (start_command_ignores_selection (at_ "09:00:05") (at_ "09:00:09")
              ready_world (setSelectedBank "BANK_B" ready_world) Ha eq_refl Hb eq_refl)
    as (H1 & H2 & _).
  split; [exact H1 | exact H2].
Defined.

(** * More scenarios *)

Fact restarted_world_reached :
  run scenario_parse session_restarted mounted = Some restarted_world.
Proof. evaluate. Qed.

(** X1: an info line and a bare [log] frame, in that order; the log still
    renders. *)
Lemma log_frames_in_order_witness :
  run log_parse (deliveries 2 log_frames) connected_world =
    Some (setLogs (logs connected_world ++
                     [ {| level := Js.Str "info"; message := Js.Str "Scanning BANK_A";
                          timestamp := "09:01:00" |};
                       {| level := Js.Undefined; message := Js.Undefined;
                          timestamp := "09:01:01" |} ])
            connected_world) ∧
  LogPanel_renders (logs connected_world ++ (log_entry_of log_parse <$> log_frames)) = true.
Proof.
  assert (sockets connected_world !! 2%positive = Some OPEN) as Hopen by evaluate.
  assert (LogPanel_renders (logs connected_world) = true) as Hold by evaluate.
  assert (∀ f, f ∈ log_frames →
            ∃ msg, log_parse f.2 = Some msg ∧ Js.get msg "type" = Some (Js.Str "log") ∧
                   React_child (member msg "message") = true)
    as Hlog.
  { intros f Hf. unfold log_frames in Hf.
    apply elem_of_cons in Hf as [-> | Hf]; [eexists; conjuncts; evaluate|].
    apply elem_of_cons in Hf as [-> | Hf]; [eexists; conjuncts; evaluate|].
    by apply elem_of_nil in Hf. }
  destruct (log_frames_in_order log_parse 2 log_frames connected_world Hopen Hold Hlog 2)
    as [Hrun Hrender].
  change (take 2 log_frames) with log_frames in Hrun, Hrender.
  split; [|exact Hrender]. rewrite Hrun. evaluate.
Defined.

(** X2: the progress frame of the specification's scenario. *)
Lemma progress_message_witness :
  onmessage scenario_parse (at_ "09:00:09") frame_progress running_world =
    addLog (at_ "09:00:09") (Js.Str "progress") (Js.Str "scan: 2/5 - scanning page")
      running_world.
Proof.
  assert (scenario_parse frame_progress = Some value_progress) as Hparse by evaluate.
  exact (progress_message scenario_parse (at_ "09:00:09") frame_progress value_progress
           running_world Hparse eq_refl).
Defined.

(** X3: the click that takes the ready world to the running one. *)
Lemma run_state_transitions_witness :
  selectedBank ready_world ≠ "" ∧ wsConnected ready_world = true.
Proof.
  assert (step scenario_parse (at_ "09:00:05") EvClickStart ready_world = Some running_world)
    as Hstep by evaluate.
  destruct (proj1 (run_state_transitions scenario_parse (at_ "09:00:05") EvClickStart
                     ready_world running_world Hstep) eq_refl eq_refl) as (_ & Hsel & Hws).
  split; [exact Hsel | exact Hws].
Defined.

(** X4: the running world has BANK_A selected. *)
Lemma running_has_listed_bank_witness :
  selectedBank running_world ≠ "" ∧
  selectedBank running_world ∈ bank_id <$> banks running_world.
Proof.
  assert (run scenario_parse session_running mounted = Some running_world) as Hrun
    by evaluate.
  exact (running_has_listed_bank scenario_parse (at_ "09:00:00") session_running
           running_world Hrun eq_refl).
Defined.

(** X5: in the ready world the socket of [wsRef] is open. *)
Lemma connected_means_open_socket_witness :
  ∃ ws, wsRef ready_world = Some ws ∧ sockets ready_world !! ws = Some OPEN.
Proof.
  assert (run scenario_parse session_ready mounted = Some ready_world) as Hrun by evaluate.
  exact (proj1 (connected_means_open_socket scenario_parse (at_ "09:00:00") session_ready
                  ready_world Hrun) eq_refl).
Defined.

(** X6: a [log] frame whose message is an object reaches the running
    world: it is appended, and the log no longer renders. *)
Lemma logs_append_only_witness :
  LogPanel_renders (logs running_world) = true ∧
  ∃ w, step log_parse (at_ "09:06:00") (EvMessage 2 frame_log_object) running_world = Some w ∧
       logs w = logs running_world ++
                  [log_entry_of log_parse (at_ "09:06:00", frame_log_object)] ∧
       LogPanel_renders (logs w) = false.
Proof.
  split; [evaluate|].
  assert (∃ w, step log_parse (at_ "09:06:00") (EvMessage 2 frame_log_object) running_world
                 = Some w) as [w Hstep] by (eexists; evaluate).
  assert (log_parse frame_log_object = Some value_log_object) as Hparse by evaluate.
  assert (Js.get value_log_object "type" = Some (Js.Str "log")) as Htype by evaluate.
  assert (React_child (member value_log_object "message") = false) as Hchild by evaluate.
  exists w. split; [exact Hstep|].
  exact (proj2 (proj2 (logs_append_only log_parse (at_ "09:06:00") _ running_world w Hstep))
           2%positive frame_log_object value_log_object eq_refl Hparse Htype Hchild).
Defined.

(** X7: the results of the first run arrive after the operator has started
    the second: the table shows while the job is running. *)
Lemma results_response_witness :
  ∃ w, step scenario_parse (at_ "09:10:02") (EvResultsSettled 5 (ResultsData (Some [ROW_1])))
         restarted_world = Some w ∧
       isRunning w = true ∧ results w = [ROW_1] ∧ results_table_visible w = true.
Proof.
  assert (requests restarted_world !! 5%positive = Some ReqResults) as Hreq by evaluate.
  destruct (results_response scenario_parse (at_ "09:10:02") 5%positive
              (ResultsData (Some [ROW_1])) restarted_world Hreq)
    as (w & Hstep & Hrun & _ & Hres & _ & _ & Hvis).
  exists w. split; [exact Hstep|]. split; [rewrite Hrun; evaluate|].
  split; [exact Hres|]. rewrite Hvis, Hres. reflexivity.
Defined.

(** X8: one completion frame, one request for the results. *)
Lemma results_requested_per_completion_witness :
  results_requests restarted_world = completions scenario_parse session_restarted ∧
  completions scenario_parse session_restarted = 1.
Proof.
  assert (run scenario_parse session_restarted mounted = Some restarted_world) as Hrun
    by evaluate.
  split; [|evaluate].
  exact (results_requested_per_completion scenario_parse (at_ "09:00:00") session_restarted
           restarted_world Hrun).
Defined.


(** X10: unmounting the connected component. *)
Lemma cleanup_leaves_reconnect_witness :
  cleanup connected_world = (Some 2%positive, connected_world) ∧
  ∃ w, step scenario_parse (at_ "09:30:00") (EvClose 2) (cleanup connected_world).2 = Some w ∧
       issued w = issued connected_world ++ [CmdSetTimeout TaskReconnect 3000%N] ∧
       timers w !! next_handle connected_world = Some TaskReconnect.
Proof.
  assert (run scenario_parse [(at_ "09:00:01", EvOpen 2)] mounted = Some connected_world)
    as Hrun by evaluate.
  assert (live connected_world 2) as Hlive by (right; evaluate).
  destruct (proj1 (cleanup_leaves_reconnect scenario_parse (at_ "09:00:00") _
                     connected_world Hrun) 2%positive Hlive) as (Hclean & Hclose).
  split; [exact Hclean | exact (Hclose (at_ "09:30:00"))].
Defined.

(** X11: the entry written when the socket of the running world closes is a
    warning of the component's own. *)
Lemma entry_levels_witness :
  entry (at_ "09:05:00") "warning" "Reconnecting to server..." ∈ logs running_world ∨
  (∃ ws data, EvClose 2 = EvMessage ws data ∧
              entry (at_ "09:05:00") "warning" "Reconnecting to server..." =
                log_entry_of scenario_parse (at_ "09:05:00", data)) ∨
  (∃ lvl, lvl ∈ own_levels ∧
          level (entry (at_ "09:05:00") "warning" "Reconnecting to server...") = Js.Str lvl ∧
          (getLogStyle (level (entry (at_ "09:05:00") "warning" "Reconnecting to server..."))
             = default_style ↔ lvl = "info")).
Proof.
  assert (∃ w, step scenario_parse (at_ "09:05:00") (EvClose 2) running_world = Some w ∧
               entry (at_ "09:05:00") "warning" "Reconnecting to server..." ∈ logs w)
    as (w & Hstep & Hin).
  { eexists. split; [evaluate|]. vm_compute. apply list_elem_of_In. right. left. reflexivity. }
  exact (entry_levels scenario_parse (at_ "09:05:00") (EvClose 2) running_world w _ Hstep Hin).
Defined.

(** X12: the response that brings the two banks is what writes the list. *)
Lemma state_writers_witness :
  ∃ r bs, EvBanksSettled 9 (BanksData (Some [BANK_A; BANK_B])) =
            EvBanksSettled r (BanksData (Some bs)) ∧ bs ≠ [] ∧ bs = [BANK_A; BANK_B].
Proof.
  assert (∃ w, step scenario_parse (at_ "09:00:08")
                 (EvBanksSettled 9 (BanksData (Some [BANK_A; BANK_B])))
                 fourth_attempt_world = Some w ∧
               banks w = [BANK_A; BANK_B] ∧ banks w ≠ banks fourth_attempt_world)
    as (w & Hstep & Hbanks & Hne).
  { eexists. split; [evaluate|]. split; [evaluate|]. vm_compute. discriminate. }
  destruct (proj1 (state_writers scenario_parse _ _ _ _ Hstep) Hne) as (r & bs & He & Hbs & Hw).
  exists r, bs. split; [exact He|]. split; [exact Hbs|]. rewrite <- Hw. exact Hbanks.
Defined.

(** X13: the click on START in the ready world sends the one command. *)
Lemma start_sent_by_enabled_click_witness :
  start_requests running_world = start_requests ready_world + 1 ∧
  isRunning ready_world = false.
Proof.
  assert (step scenario_parse (at_ "09:00:05") EvClickStart ready_world = Some running_world)
    as Hstep by evaluate.
  destruct (start_sent_by_enabled_click scenario_parse _ _ _ _ Hstep) as (Hcount & Hclick).
  split; [exact Hcount|]. exact (proj1 (Hclick eq_refl)).
Defined.

(** X14: once the two banks are stored, the rest of the session leaves them. *)
Lemma banks_set_once_witness :
  banks running_world = banks ready_world ∧
  banks_attempts running_world = banks_attempts ready_world.
Proof.
  assert (run scenario_parse session_ready mounted = Some ready_world) as Hrun by evaluate.
  assert (banks ready_world ≠ []) as Hne by (vm_compute; discriminate).
  assert (run scenario_parse [(at_ "09:00:05", EvClickStart)] ready_world = Some running_world)
    as Hnext by evaluate.
  exact (proj2 (banks_set_once scenario_parse (at_ "09:00:00") session_ready ready_world
                  Hrun Hne) _ _ Hnext).
Defined.

(** X15: the download of the second row is answered 404 with a body: the
    body is saved under the tender's name all the same. *)
Lemma download_outcome_witness :
  ∃ p, page_step scenario_parse (at_ "09:11:01")
         (EvDownloadSettled 1 (DownloadResponse false (Some "Not Found"))) downloading_page
         = Some p ∧
       actions p = [ActSave "Bridge repair_forms.zip" "Not Found"] ∧
       app p = app downloading_page.
Proof.
  assert (page_run scenario_parse session_download_clicked mounted_page =
            Some downloading_page) as Hrun by evaluate.
  assert (downloads downloading_page !! 1%positive = Some "Bridge repair") as Hpending
    by evaluate.
  destruct (proj2 (download_outcome scenario_parse (at_ "09:00:00") session_download_clicked
                     downloading_page Hrun)
              (at_ "09:11:01") 1%positive "Bridge repair"
              (DownloadResponse false (Some "Not Found")) Hpending)
    as (p & Hstep & Happ & _ & _ & _ & Hactions).
  exists p. split; [exact Hstep|]. split; [|exact Happ]. rewrite Hactions. evaluate.
Defined.
